(** * neurodsp.filt: FIR / IIR filtering of a neural signal

    A shallow embedding of [neurodsp/filt.py] and the properties of its
    specification.

    Conventions of the embedding.
    - Frequencies, sampling rates, cycle counts and durations are Python
      floats in the source, that is finite IEEE 754 doubles (or integers
      below 2^53); they are embedded as the rationals [Q] they denote, and
      [/] raises on a zero divisor. Where a product or a quotient is handed
      to [np.ceil], in [_fir_checks], the operation is embedded with its
      rounding to the nearest double ([round64]) and its overflow to
      infinity, since the rounding can move the ceiling. The differences and
      quotients that are only returned or handed on to scipy are kept as
      the exact value, of which the double is the rounding.
    - A signal is a [list F] over a carrier [F] of samples that has a
      distinguished [nan] and the test [isnan]; the numeric routines of
      numpy and scipy ([np.convolve], [signal.firwin], [signal.butter],
      [signal.filtfilt], [signal.freqz]) are the fields of a [Substrate].
    - A Python exception is a value of [exn]; a call that may raise returns a
      [result]; a call that may also warn, print or plot returns an [M], which
      carries the events emitted so far even when the call raises.
    - The cutoff argument [fc] is dynamically typed: a number, a tuple of
      numbers and [None], or a list (or array) of them, which the source
      tells from a tuple. The boolean options are [bool]; [verbose], which
      the source never reads, is left out. *)

From Stdlib Require Import ZArith QArith Qround Qabs Qpower String.
From stdpp Require Import base list.
From Stdlib Require Import Lia Lqa Sorted.

Local Open Scope string_scope.
Local Open Scope Z_scope.
Local Open Scope list_scope.

(** ** Exceptions and results *)

Inductive exn : Type :=
| ValueError (msg : string)
| TypeError (msg : string)
| IndexError (msg : string)
| ZeroDivisionError (msg : string)
| OverflowError (msg : string)
| UnboundLocalError (msg : string).

Inductive result (A : Type) : Type :=
| Ok (a : A)
| Raise (e : exn).
Arguments Ok {A} a.
Arguments Raise {A} e.

#[global] Instance result_ret : MRet result := fun A a => Ok a.
#[global] Instance result_bind : MBind result := fun A B f m =>
  match m with
  | Ok a => f a
  | Raise e => Raise e
  end.

(** The error taxonomy of the specification. The source has no exception
    class of its own: an invalid filter definition and a filter that is too
    long are both raised as [ValueError], the class that scipy also raises
    for a cutoff it refuses, and the two IIR errors as [TypeError]. The
    message of the too-long error is formatted with the two lengths and goes
    on with advice; its first sentence stands for it here. *)

Definition msg_passtype : string := "Filter passtype not understood.".
Definition msg_second_greater : string :=
  "Second cutoff frequency must be greater than first.".
Definition msg_two_required : string :=
  "Two cutoff frequencies required for bandpass and bandstop filters".
Definition msg_too_long : string :=
  "The designed filter is longer than the signal.".
Definition msg_n_seconds : string :=
  "n_seconds should not be defined for an IIR filter.".
Definition msg_order : string :=
  "butterworth_order must be defined when using an IIR filter.".

Definition InvalidFilterDefinition (e : exn) : Prop :=
  exists msg, e = ValueError msg.
Definition FilterTooLong : exn := ValueError msg_too_long.
Definition IncompatibleOption : exn := TypeError msg_n_seconds.
Definition MissingOrder : exn := TypeError msg_order.

(** ** Python values of the cutoff argument

    [fc] is a float, or a tuple whose items are floats or [None]
    (the docstring allows [(None, f_hi)] and [(f_lo, None)]); a list or an
    array of such items is not a tuple for [isinstance]. The floats are
    finite. *)

Inductive pyval : Type :=
| PyNone
| PyNum (q : Q).

Inductive cutoff : Type :=
| FcNum (q : Q)
| FcTuple (items : list pyval)
| FcList (items : list pyval).

Definition str_in (s : string) (l : list string) : bool :=
  existsb (String.eqb s) l.

(** [t[i]] on a tuple. *)
Definition getitem (t : list pyval) (i : nat) : result pyval :=
  match t !! i with
  | Some v => Ok v
  | None => Raise (IndexError "tuple index out of range")
  end.

(** [a >= b] on finite floats; Python 3 refuses to order [None]. *)
Definition py_ge (a b : pyval) : result bool :=
  match a, b with
  | PyNum x, PyNum y => Ok (Qle_bool y x)
  | _, _ => Raise (TypeError "'>=' not supported between instances")
  end.

(** [a > b]. *)
Definition py_gt (a b : pyval) : result bool :=
  match a, b with
  | PyNum x, PyNum y => Ok (negb (Qle_bool x y))
  | _, _ => Raise (TypeError "'>' not supported between instances")
  end.

(** [a - b]. *)
Definition py_sub (a b : pyval) : result pyval :=
  match a, b with
  | PyNum x, PyNum y => Ok (PyNum (x - y))
  | _, _ => Raise (TypeError "unsupported operand type(s) for -")
  end.

(** [a / b]. *)
Definition py_div (a b : pyval) : result pyval :=
  match a, b with
  | PyNum x, PyNum y =>
      if Qeq_bool y 0 then Raise (ZeroDivisionError "float division by zero")
      else Ok (PyNum (x / y))
  | _, _ => Raise (TypeError "unsupported operand type(s) for /")
  end.

(** [f_lo, f_hi = fc]. *)
Definition unpack2 (fc : cutoff) : result (pyval * pyval) :=
  match fc with
  | FcTuple [a; b] | FcList [a; b] => Ok (a, b)
  | FcTuple _ | FcList _ =>
      Raise (ValueError "wrong number of values to unpack")
  | FcNum _ => Raise (TypeError "cannot unpack non-iterable object")
  end.

(** ** Filter definition checks *)

Definition isinstance_tuple (fc : cutoff) : bool :=
  match fc with FcTuple _ => true | _ => false end.

Definition isinstance_number (fc : cutoff) : bool :=
  match fc with FcNum _ => true | _ => false end.

(** [len(fc)], evaluated only where [fc] is not a number. *)
Definition len_fc (fc : cutoff) : nat :=
  match fc with FcTuple t | FcList t => length t | FcNum _ => 0%nat end.

(** [fc[i]], evaluated only where [fc] is a tuple. *)
Definition fc_item (fc : cutoff) (i : nat) : result pyval :=
  match fc with
  | FcTuple t | FcList t => getitem t i
  | FcNum _ => Raise (TypeError "object is not subscriptable")
  end.

Definition check_filter_definition (pass_type : string) (fc : cutoff)
  : result (pyval * pyval) :=
  if negb (str_in pass_type ["bandpass"; "bandstop"; "lowpass"; "highpass"])
  then Raise (ValueError msg_passtype)
  else if str_in pass_type ["bandpass"; "bandstop"] then
    (* isinstance(fc, tuple) and fc[0] >= fc[1] *)
    unordered ← (if isinstance_tuple fc
                 then a ← fc_item fc 0; b ← fc_item fc 1; py_ge a b
                 else Ok false);
    if (unordered : bool) then Raise (ValueError msg_second_greater)
    else if isinstance_number fc || negb (len_fc fc =? 2)%nat
    then Raise (ValueError msg_two_required)
    else unpack2 fc
  else if String.eqb pass_type "lowpass" then
    (* neither branch assigns [f_hi] for a list, and the return reads it *)
    f_hi ← (if isinstance_number fc
            then match fc with FcNum q => Ok (PyNum q) | _ => Ok PyNone end
            else if isinstance_tuple fc then fc_item fc 1
            else Raise (UnboundLocalError "f_hi"));
    Ok (PyNone, f_hi)
  else if String.eqb pass_type "highpass" then
    f_lo ← (if isinstance_number fc
            then match fc with FcNum q => Ok (PyNum q) | _ => Ok PyNone end
            else if isinstance_tuple fc then fc_item fc 0
            else Raise (UnboundLocalError "f_lo"));
    Ok (f_lo, PyNone)
  else Raise (UnboundLocalError "f_lo").

Definition compute_nyquist (fs : Q) : Q := (fs / 2)%Q.

(** ** Double-precision arithmetic

    The result of a float operation is the exact result rounded to the
    nearest double, ties to the even significand: 53 significant bits, a
    last place no finer than [2^-1074], and infinity from [2^1024] on. *)

Definition Qlt_bool (x y : Q) : bool := negb (Qle_bool y x).

(** [floor(log2 q)] of a positive rational. *)
Definition Qlog2_floor (q : Q) : Z :=
  let e := Z.log2 (Qnum q) - Z.log2 (Zpos (Qden q)) in
  if Qle_bool (2 ^ e) q then e else e - 1.

(** Rounding to the nearest integer, ties to the even one. *)
Definition round_half_even (q : Q) : Z :=
  let f := Qfloor q in
  match (q - inject_Z f ?= 1 # 2)%Q with
  | Lt => f
  | Gt => f + 1
  | Eq => if Z.even f then f else f + 1
  end.

(** What a float operation on finite operands yields. *)
Inductive float64 : Type :=
| Finite (q : Q)
| Infinite (negative : bool).

(** The exponent of the last place of the double nearest to [q]. *)
Definition ulp_exponent (q : Q) : Z :=
  Z.max (Qlog2_floor (Qabs q) - 52) (-1074).

Definition round64 (q : Q) : float64 :=
  if Qeq_bool q 0 then Finite 0
  else
    let e := ulp_exponent q in
    let x := (inject_Z (round_half_even (q / 2 ^ e)) * 2 ^ e)%Q in
    if Qle_bool (2 ^ 1024) (Qabs x) then Infinite (Qlt_bool q 0)
    else Finite (Qred x).

(** [x * y] on floats. *)
Definition float_mul (x y : Q) : float64 := round64 (x * y).

(** [x / d] on floats, for a divisor that is not zero. *)
Definition float_div (x : float64) (d : Q) : float64 :=
  match x with
  | Finite a => round64 (a / d)
  | Infinite negative => Infinite (xorb negative (Qlt_bool d 0))
  end.

(** [int(np.ceil(x))]. *)
Definition int_ceil (x : float64) : result Z :=
  match x with
  | Finite a => Ok (Qceiling a)
  | Infinite _ =>
      Raise (OverflowError "cannot convert float infinity to integer")
  end.

(** The double that a decimal literal denotes. *)
Definition double (q : Q) : Q :=
  match round64 q with Finite x => x | Infinite _ => 0%Q end.

(** [int(np.ceil(x / d))]. *)
Definition ceil_div (x : float64) (d : pyval) : result Z :=
  match d with
  | PyNum q =>
      if Qeq_bool q 0 then Raise (ZeroDivisionError "float division by zero")
      else int_ceil (float_div x q)
  | PyNone => Raise (TypeError "unsupported operand type(s) for /")
  end.

(** The filter length before it is forced odd. *)
Definition raw_filt_len (pass_type : string) (f_lo f_hi : pyval)
  (n_cycles : Q) (n_seconds : option Q) (fs : Q) : result Z :=
  match n_seconds with
  | Some secs => int_ceil (float_mul fs secs)
  | None =>
      if String.eqb pass_type "lowpass"
      then ceil_div (float_mul fs n_cycles) f_hi
      else ceil_div (float_mul fs n_cycles) f_lo
  end.

Definition force_odd (filt_len : Z) : Z :=
  if (filt_len mod 2 =? 0) then filt_len + 1 else filt_len.

Definition _fir_checks (pass_type : string) (f_lo f_hi : pyval)
  (n_cycles : Q) (n_seconds : option Q) (fs : Q) (sig_length : nat)
  : result Z :=
  filt_len ← raw_filt_len pass_type f_lo f_hi n_cycles n_seconds fs;
  let filt_len := force_odd filt_len in
  if (filt_len >=? Z.of_nat sig_length) then Raise FilterTooLong
  else Ok filt_len.

Definition compute_pass_band (pass_type : string) (fc : cutoff) (fs : Q)
  : result pyval :=
  '(f_lo, f_hi) ← check_filter_definition pass_type fc;
  if str_in pass_type ["bandpass"; "bandstop"] then py_sub f_hi f_lo
  else if String.eqb pass_type "highpass"
  then py_sub (PyNum (compute_nyquist fs)) f_lo
  else if String.eqb pass_type "lowpass" then Ok f_hi
  else Raise (UnboundLocalError "pass_bw").

(** The cutoffs as the specification names them: the lower cutoff is the
    single cutoff or the first item of the tuple, the higher cutoff is the
    single cutoff or the second item. *)
Definition lower_cutoff (fc : cutoff) : option Q :=
  match fc with
  | FcNum q => Some q
  | FcTuple (PyNum q :: _) => Some q
  | _ => None
  end.

Definition higher_cutoff (fc : cutoff) : option Q :=
  match fc with
  | FcNum q => Some q
  | FcTuple (_ :: PyNum q :: _) => Some q
  | _ => None
  end.

(** The frequency whose period measures the filter length in cycles: the
    lower cutoff for bandpass, bandstop and highpass, the higher cutoff for
    lowpass. *)
Definition reference_frequency (pass_type : string) (fc : cutoff) : option Q :=
  if String.eqb pass_type "lowpass" then higher_cutoff fc else lower_cutoff fc.

(** ** Events and the monad of the filtering functions *)

(** The argument handed to [signal.firwin] and [signal.butter]: one band
    edge, or a pair of them. *)
Inductive band_arg : Type :=
| Edge (f : pyval)
| Band (f_lo f_hi : pyval).

(** The denominator coefficients [a_vals]: the integer [1] on the FIR path,
    an array on the IIR path. *)
Inductive denom (F : Type) : Type :=
| DenomOne
| DenomVals (a : list F).
Arguments DenomOne {F}.
Arguments DenomVals {F} a.

(** What a call leaves on the side channel: [warnings.warn], [print] and the
    call of the plotting collaborator. The numbers a message is formatted
    with are kept next to its text. *)
Inductive event (F : Type) : Type :=
| Warn (msg : string) (args : list pyval)
| Print (msg : string) (args : list pyval)
| PlotFrequencyResponse (fs : Q) (b_vals : list F) (a_vals : denom F).
Arguments Warn {F} msg args.
Arguments Print {F} msg args.
Arguments PlotFrequencyResponse {F} fs b_vals a_vals.

Record M (F A : Type) : Type := mkM {
  events : list (event F);
  outcome : result A
}.
Arguments mkM {F A} events outcome.
Arguments events {F A} m.
Arguments outcome {F A} m.

#[global] Instance M_ret {F} : MRet (M F) := fun A a => mkM [] (Ok a).
#[global] Instance M_bind {F} : MBind (M F) := fun A B f m =>
  match outcome m with
  | Ok a => mkM (events m ++ events (f a)) (outcome (f a))
  | Raise e => mkM (events m) (Raise e)
  end.

Definition lift {F A} (r : result A) : M F A := mkM [] r.
Definition emit {F} (ev : event F) : M F unit := mkM [ev] (Ok tt).
Definition warn {F} (msg : string) (args : list pyval) : M F unit :=
  emit (Warn msg args).
Definition print {F} (msg : string) (args : list pyval) : M F unit :=
  emit (Print msg args).
Definition raise {F A} (e : exn) : M F A := mkM [] (Raise e).
Definition when {F} (b : bool) (m : M F unit) : M F unit :=
  if b then m else mret tt.

Definition msg_no_attenuation : string :=
  "The filter attenuation never goes below -20dB.Increase filter length.".
Definition msg_stopband : string :=
  "The low or high frequency stopband never gets attenuated bymore than {} dB. Increase filter length.".
Definition msg_transition_wide : string :=
  "Transition bandwidth is  {:.1f}  Hz. This is greater than the desiredpass/stop bandwidth of  {:.1f} Hz".
Definition msg_print_transition : string := "Transition bandwidth is {:.1f} Hz.".
Definition msg_print_pass : string := "Pass/stop bandwidth is {:.1f} Hz".
Definition msg_iir_notch : string :=
  "IIR filters are not recommended other than for notch filters.".
Definition msg_iir_edge : string :=
  "Edge artifacts are not removed when using an IIR filter.".

(** ** The numeric substrate *)

Class Substrate (F : Type) : Type := {
  (** [np.nan] and [np.isnan] on one sample *)
  nan : F;
  isnan : F -> bool;
  isnan_nan : isnan nan = true;
  (** [signal.firwin(numtaps, cutoff, pass_zero=, nyq=)] *)
  firwin : Z -> band_arg -> bool -> Q -> result (list F);
  (** [signal.butter(N, Wn, btype)] *)
  butter : option Z -> band_arg -> string -> result (list F * list F);
  (** [np.convolve(kernel, sig, 'same')] *)
  convolve_same : list F -> list F -> result (list F);
  (** [signal.filtfilt(b, a, x)] *)
  filtfilt : list F -> list F -> list F -> result (list F);
  (** [compute_frequency_response(b_vals, a_vals, fs)]: the frequency grid
      and the attenuation in dB that [signal.freqz] gives for the
      coefficients; its body divides by 2 pi and takes a [log10] of a
      complex modulus, so the function is taken as a whole. *)
  compute_frequency_response :
    list F -> denom F -> Q -> result (list Q * list Q)
}.

(** Modelled from the spec: [plot_frequency_response] of [neurodsp.plts.filt]
    is not part of the sources at hand; the specification describes it as a
    sink that renders its arguments, is never used for a control decision and
    has no effect on returned data. *)
Definition plot_frequency_response {F} (fs : Q) (b_vals : list F)
  (a_vals : denom F) : M F unit :=
  emit (PlotFrequencyResponse fs b_vals a_vals).

(** ** Reductions and indexing on the frequency response *)

Definition msg_zero_size : string :=
  "zero-size array to reduction operation which has no identity".

Definition np_min (l : list Q) : result Q :=
  match l with
  | [] => Raise (ValueError msg_zero_size)
  | x :: xs => Ok (foldl (fun m y => if Qlt_bool y m then y else m) x xs)
  end.

Definition np_max (l : list Q) : result Q :=
  match l with
  | [] => Raise (ValueError msg_zero_size)
  | x :: xs => Ok (foldl (fun m y => if Qlt_bool m y then y else m) x xs)
  end.

(** [np.diff] of a boolean array: where neighbours differ. *)
Fixpoint np_diff (mask : list bool) : list bool :=
  match mask with
  | a :: (b :: _) as rest => xorb b a :: np_diff rest
  | _ => []
  end.

(** [np.where(mask)[0]], counting from [i]. *)
Fixpoint np_where_from (i : nat) (mask : list bool) : list nat :=
  match mask with
  | [] => []
  | b :: rest =>
      if b then i :: np_where_from (S i) rest else np_where_from (S i) rest
  end.
Definition np_where (mask : list bool) : list nat := np_where_from 0 mask.

(** [l[0::2]] and [l[1::2]]. *)
Fixpoint evens {A} (l : list A) : list A :=
  match l with
  | [] => []
  | x :: rest => x :: match rest with [] => [] | _ :: rest' => evens rest' end
  end.
Definition odds {A} (l : list A) : list A :=
  match l with [] => [] | _ :: rest => evens rest end.

(** [arr[inds]] for an array of indices. *)
Fixpoint take_inds (arr : list Q) (inds : list nat) : result (list Q) :=
  match inds with
  | [] => Ok []
  | i :: rest =>
      match arr !! i with
      | Some x => xs ← take_inds arr rest; Ok (x :: xs)
      | None => Raise (IndexError "index is out of bounds")
      end
  end.

(** [arr[0]] and [arr[-1]]. *)
Definition first_item (arr : list Q) : result Q :=
  match arr with
  | x :: _ => Ok x
  | [] => Raise (IndexError "index 0 is out of bounds")
  end.
Definition last_item (arr : list Q) : result Q :=
  match last arr with
  | Some x => Ok x
  | None => Raise (IndexError "index -1 is out of bounds")
  end.

Definition compute_transition_band (f_db db : list Q) (low high : Q)
  : result Q :=
  let inds :=
    np_where (np_diff (map (fun d => Qlt_bool low d && Qlt_bool d high) db)) in
  lows ← take_inds f_db (evens inds);
  highs ← take_inds f_db (odds inds);
  np_max (zip_with (fun a b => (b - a)%Q) lows highs).



(** ** The filtering functions *)

Section Filt.
Context {F : Type} {Sub : Substrate F}.

Definition default_transitions : Q * Q := ((-20)%Q, (-3)%Q).

Definition check_filter_properties (b_vals : list F) (a_vals : denom F)
  (fs : Q) (pass_type : string) (fc : cutoff) (transitions : Q * Q)
  : M F unit :=
  '(f_lo, f_hi) ← lift (check_filter_definition pass_type fc);
  '(f_db, db) ← lift (compute_frequency_response b_vals a_vals fs);
  lowest ← lift (np_min db);
  if Qle_bool transitions.1 lowest then
    (* no attenuation: the bands cannot be computed, return here *)
    warn msg_no_attenuation []
  else
    (if String.eqb pass_type "bandpass" then
       d0 ← lift (first_item db);
       if Qle_bool transitions.1 d0
       then warn msg_stopband [PyNum (Qabs transitions.1)]
       else
         dn ← lift (last_item db);
         when (Qle_bool transitions.1 dn)
              (warn msg_stopband [PyNum (Qabs transitions.1)])
     else mret tt);;
    pass_bw ← lift (compute_pass_band pass_type fc fs);
    transition_bw ←
      lift (compute_transition_band f_db db transitions.1 transitions.2);
    wide ← lift (py_gt (PyNum transition_bw) pass_bw);
    when wide (warn msg_transition_wide [PyNum transition_bw; pass_bw]);;
    print msg_print_transition [PyNum transition_bw];;
    print msg_print_pass [pass_bw].

(** [sig_nans = np.isnan(sig)]; [sig_removed = sig[np.where(~np.isnan(sig))]]. *)
Definition _remove_nans (sig : list F) : list F * list bool :=
  let sig_nans := map isnan sig in
  let sig_removed := List.filter (fun x => negb (isnan x)) sig in
  (sig_removed, sig_nans).

(** [dst[mask] = src] once the sizes have been checked: the items of [src]
    go, in order, to the positions where [mask] holds. *)
Fixpoint put_mask (dst : list F) (mask : list bool) (src : list F) : list F :=
  match dst, mask with
  | d :: dst', true :: mask' =>
      match src with
      | x :: src' => x :: put_mask dst' mask' src'
      | [] => d :: put_mask dst' mask' []
      end
  | d :: dst', false :: mask' => d :: put_mask dst' mask' src
  | _, _ => dst
  end.

Definition count_true (mask : list bool) : nat :=
  length (List.filter (fun b => b) mask).

(** numpy's boolean-mask assignment [dst[mask] = src] for 1d arrays: a
    source of one item is broadcast, any other source must have as many
    items as the mask has true entries. *)
Definition setitem_mask (dst : list F) (mask : list bool) (src : list F)
  : result (list F) :=
  match src with
  | [x] => Ok (put_mask dst mask (replicate (count_true mask) x))
  | _ =>
      if (length src =? count_true mask)%nat then Ok (put_mask dst mask src)
      else Raise (ValueError
        "NumPy boolean array indexing assignment cannot assign input values to the output values where the mask is true")
  end.

Definition _restore_nans (sig : list F) (sig_nans : list bool)
  : result (list F) :=
  let sig_restored := replicate (length sig_nans) nan in
  setitem_mask sig_restored (map negb sig_nans) sig.

(** The start of the slice [sig[-n:]] of an array of [len] items. *)
Definition tail_start (len n : nat) : nat :=
  if (n =? 0)%nat then 0%nat else (len - n)%nat.

Definition _drop_edge_artifacts (sig : list F) (filt_len : nat) : list F :=
  let n_rmv := Z.to_nat (Qceiling (inject_Z (Z.of_nat filt_len) / 2)) in
  (* sig[:n_rmv] = np.nan *)
  let sig := replicate (Nat.min n_rmv (length sig)) nan ++ drop n_rmv sig in
  (* sig[-n_rmv:] = np.nan *)
  let start := tail_start (length sig) n_rmv in
  take start sig ++ replicate (length sig - start) nan.

Definition design_fir_filter (pass_type : string) (fc : cutoff)
  (n_cycles : Q) (n_seconds : option Q) (fs : Q) (sig_length : nat)
  : result (list F) :=
  '(f_lo, f_hi) ← check_filter_definition pass_type fc;
  filt_len ← _fir_checks pass_type f_lo f_hi n_cycles n_seconds fs sig_length;
  let f_nyq := compute_nyquist fs in
  if String.eqb pass_type "bandpass"
  then firwin filt_len (Band f_lo f_hi) false f_nyq
  else if String.eqb pass_type "bandstop"
  then firwin filt_len (Band f_lo f_hi) true f_nyq
  else if String.eqb pass_type "highpass"
  then firwin filt_len (Edge f_lo) false f_nyq
  else if String.eqb pass_type "lowpass"
  then firwin filt_len (Edge f_hi) true f_nyq
  else Raise (UnboundLocalError "kernel").

Definition design_iir_filter (pass_type : string) (fc : cutoff)
  (butterworth_order : option Z) (fs : Q) : M F (list F * list F) :=
  when (negb (String.eqb pass_type "bandstop")) (warn msg_iir_notch []);;
  '(f_lo, f_hi) ← lift (check_filter_definition pass_type fc);
  let f_nyq := PyNum (compute_nyquist fs) in
  win ← lift (
    if str_in pass_type ["bandpass"; "bandstop"]
    then lo ← py_div f_lo f_nyq; hi ← py_div f_hi f_nyq; Ok (Band lo hi)
    else if String.eqb pass_type "highpass"
    then lo ← py_div f_lo f_nyq; Ok (Edge lo)
    else if String.eqb pass_type "lowpass"
    then hi ← py_div f_hi f_nyq; Ok (Edge hi)
    else Raise (UnboundLocalError "win"));
  lift (butter butterworth_order win pass_type).

(** What [filter_signal] hands back: the filtered signal, and the kernel when
    [return_kernel] is set. *)
Inductive kernel : Type :=
| FirKernel (b_vals : list F)
| IirKernel (b_vals a_vals : list F).

Definition returned : Type := list F * option kernel.

Definition filter_signal_fir (sig : list F) (fs : Q) (pass_type : string)
  (fc : cutoff) (n_cycles : Q) (n_seconds : option Q)
  (plot_freq_response return_kernel compute_transition_band
     remove_edge_artifacts : bool) : M F returned :=
  (* Design filter *)
  kern ← lift (design_fir_filter pass_type fc n_cycles n_seconds fs
                 (length sig));
  (* Compute transition bandwidth *)
  when compute_transition_band
    (check_filter_properties kern DenomOne fs pass_type fc
       default_transitions);;
  (* Remove any NaN on the edges of 'sig' *)
  let '(sig, sig_nans) := _remove_nans sig in
  (* Apply filter *)
  sig_filt ← lift (convolve_same kern sig);
  (* Remove edge artifacts *)
  let sig_filt :=
    if remove_edge_artifacts
    then _drop_edge_artifacts sig_filt (length kern) else sig_filt in
  (* Add NaN back on the edges of 'sig' *)
  sig_filt ← lift (_restore_nans sig_filt sig_nans);
  (* Plot frequency response, if desired *)
  when plot_freq_response (plot_frequency_response fs kern DenomOne);;
  if return_kernel then mret (sig_filt, Some (FirKernel kern))
  else mret (sig_filt, None).

Definition filter_signal_iir (sig : list F) (fs : Q) (pass_type : string)
  (fc : cutoff) (butterworth_order : option Z)
  (plot_freq_response return_kernel compute_transition_band : bool)
  : M F returned :=
  (* Design filter *)
  '(b_vals, a_vals) ← design_iir_filter pass_type fc butterworth_order fs;
  (* Compute transition bandwidth *)
  when compute_transition_band
    (check_filter_properties b_vals (DenomVals a_vals) fs pass_type fc
       default_transitions);;
  (* Remove any NaN on the edges of 'sig' *)
  let '(sig, sig_nans) := _remove_nans sig in
  (* Apply filter *)
  sig_filt ← lift (filtfilt b_vals a_vals sig);
  (* Add NaN back on the edges of 'sig' *)
  sig_filt ← lift (_restore_nans sig_filt sig_nans);
  (* Plot frequency response, if desired *)
  when plot_freq_response
    (plot_frequency_response fs b_vals (DenomVals a_vals));;
  if return_kernel then mret (sig_filt, Some (IirKernel b_vals a_vals))
  else mret (sig_filt, None).

Definition _iir_checks (n_seconds : option Q) (butterworth_order : option Z)
  (remove_edge_artifacts : bool) : M F unit :=
  when remove_edge_artifacts (warn msg_iir_edge []);;
  (if n_seconds is Some _ then raise IncompatibleOption else mret tt);;
  (if butterworth_order is None then raise MissingOrder else mret tt).

Definition filter_signal (sig : list F) (fs : Q) (pass_type : string)
  (fc : cutoff) (n_cycles : Q) (n_seconds : option Q) (iir : bool)
  (butterworth_order : option Z)
  (plot_freq_response return_kernel compute_transition_band
     remove_edge_artifacts : bool) : M F returned :=
  if iir then
    _iir_checks n_seconds butterworth_order remove_edge_artifacts;;
    filter_signal_iir sig fs pass_type fc butterworth_order
      plot_freq_response return_kernel compute_transition_band
  else
    filter_signal_fir sig fs pass_type fc n_cycles n_seconds
      plot_freq_response return_kernel compute_transition_band
      remove_edge_artifacts.

(** ** Vocabulary of the properties *)

(** The sample at position [i] is NaN. *)
Definition nan_at (s : list F) (i : nat) : bool :=
  match s !! i with Some x => isnan x | None => false end.

(** A sample with every NaN replaced by [np.nan]. *)
Definition canonical (x : F) : F := if isnan x then nan else x.

(** The number of samples of [sig] that are not NaN. *)
Definition n_valid (sig : list F) : nat := length (_remove_nans sig).1.

(** The number of samples before position [i] that are not NaN: the place
    that sample [i] takes in the signal once the NaN are removed. *)
Definition rank (sig : list F) (i : nat) : nat := n_valid (take i sig).

(** The number of samples that edge removal blanks at each end. *)
Definition edge_width (filt_len : nat) : nat :=
  Z.to_nat (Qceiling (inject_Z (Z.of_nat filt_len) / 2)).

(** Position [i] is among the first or the last [n] positions of [sig]. *)
Definition in_signal_edge (sig : list F) (n i : nat) : bool :=
  (i <? n)%nat || (length sig - n <=? i)%nat.

(** Sample [i] is among the first or the last [n] samples of [sig] that are
    not NaN. *)
Definition in_stripped_edge (sig : list F) (n i : nat) : bool :=
  (rank sig i <? n)%nat || (n_valid sig - n <=? rank sig i)%nat.

(** The NaN of [out] are those of [sig] together with, when edge removal is
    on, the first and last [edge_width filt_len] positions of the signal. *)
Definition nan_at_signal_edges (sig : list F) (filt_len : nat)
  (remove_edge_artifacts : bool) (out : list F) : Prop :=
  forall i, (i < length sig)%nat ->
    nan_at out i
    = nan_at sig i
      || (remove_edge_artifacts
          && in_signal_edge sig (edge_width filt_len) i).

(** The NaN of [out] are those of [sig] together with, when edge removal is
    on, the positions of the first and last [edge_width filt_len] samples of
    the signal that are not NaN. *)
Definition nan_at_stripped_edges (sig : list F) (filt_len : nat)
  (remove_edge_artifacts : bool) (out : list F) : Prop :=
  forall i, (i < length sig)%nat ->
    nan_at out i
    = nan_at sig i
      || (remove_edge_artifacts
          && in_stripped_edge sig (edge_width filt_len) i).

(** The contracts of the numeric routines that the properties rely on. *)

(** [signal.firwin] returns [numtaps] coefficients. *)
Definition firwin_length : Prop :=
  forall numtaps c pass_zero nyq k,
    firwin numtaps c pass_zero nyq = Ok k -> Z.of_nat (length k) = numtaps.

(** [np.convolve(a, v, 'same')] returns [max(len(a), len(v))] items. *)
Definition convolve_same_length : Prop :=
  forall k s y,
    convolve_same k s = Ok y -> length y = Nat.max (length k) (length s).

(** [signal.firwin] refuses a cutoff that is not below [nyq] with a
    [ValueError], whatever the number of taps. *)
Definition firwin_rejects_nyquist : Prop :=
  forall numtaps f pass_zero nyq,
    (0 < nyq)%Q -> (nyq <= f)%Q ->
    exists msg,
      firwin numtaps (Edge (PyNum f)) pass_zero nyq = Raise (ValueError msg).

(** [signal.butter] refuses a critical frequency, as a fraction of the
    Nyquist frequency, that is not below one with a [ValueError]. *)
Definition butter_rejects_nyquist : Prop :=
  forall order wn btype,
    (1 <= wn)%Q ->
    exists msg,
      butter (Some order) (Edge (PyNum wn)) btype = Raise (ValueError msg).

End Filt.

(** ** An exact substrate to run the functions on

    Samples are rationals or NaN and [np.convolve] is computed exactly.
    The coefficients of [signal.firwin] and [signal.butter], the output of
    [signal.filtfilt] and the frequency response involve trigonometric
    functions and logarithms; here they are stand-ins that keep the argument
    checks and the shapes scipy documents (a moving-average kernel of
    [numtaps] taps, constant coefficient arrays, an output as long as the
    input, a tabulated response). They serve to evaluate the functions above
    on concrete inputs; the general theorems hold for every substrate. *)

Module Exact.

Inductive sample : Type :=
| NaN
| Num (q : Q).

Definition is_nan (x : sample) : bool :=
  match x with NaN => true | Num _ => false end.

Definition sadd (a b : sample) : sample :=
  match a, b with Num x, Num y => Num (x + y) | _, _ => NaN end.
Definition smul (a b : sample) : sample :=
  match a, b with Num x, Num y => Num (x * y) | _, _ => NaN end.

(** Pointwise sum of two arrays, the longer one giving the tail. *)
Fixpoint add_arrays (u v : list sample) : list sample :=
  match u, v with
  | [], _ => v
  | _, [] => u
  | x :: u', y :: v' => sadd x y :: add_arrays u' v'
  end.

(** The full discrete convolution of [a] and [v]. *)
Fixpoint convolve_full (a v : list sample) : list sample :=
  match a with
  | [] => []
  | x :: a' =>
      match a' with
      | [] => map (smul x) v
      | _ => add_arrays (map (smul x) v) (Num 0 :: convolve_full a' v)
      end
  end.

(** [np.convolve(a, v, 'same')]: the central [max(M, N)] items of the full
    convolution. *)
Definition convolve (a v : list sample) : result (list sample) :=
  match a, v with
  | [], _ => Raise (ValueError "a cannot be empty")
  | _, [] => Raise (ValueError "v cannot be empty")
  | _, _ =>
      let start := ((Nat.min (length a) (length v) - 1) / 2)%nat in
      Ok (take (Nat.max (length a) (length v)) (drop start (convolve_full a v)))
  end.

Definition valid_edge (nyq : Q) (f : pyval) : result bool :=
  match f with
  | PyNum q => Ok (Qlt_bool 0 q && Qlt_bool q nyq)
  | PyNone => Raise (TypeError "unsupported operand type(s)")
  end.

Definition valid_band (nyq : Q) (c : band_arg) : result bool :=
  match c with
  | Edge f => valid_edge nyq f
  | Band lo hi =>
      a ← valid_edge nyq lo; b ← valid_edge nyq hi; inc ← py_gt hi lo;
      Ok (a && b && inc)
  end.

Definition fir_design (numtaps : Z) (c : band_arg) (pass_zero : bool)
  (nyq : Q) : result (list sample) :=
  ok ← valid_band nyq c;
  if (ok : bool) && (0 <? numtaps)
  then Ok (replicate (Z.to_nat numtaps) (Num (1 / inject_Z numtaps)))
  else Raise (ValueError
    "Invalid cutoff frequency: frequencies must be greater than 0 and less than nyq.").

Definition iir_design (order : option Z) (c : band_arg) (btype : string)
  : result (list sample * list sample) :=
  match order with
  | None => Raise (TypeError "order must be an integer")
  | Some n =>
      ok ← valid_band 1 c;
      if (ok : bool) && (0 <? n)
      then let taps := match c with
                       | Edge _ => Z.to_nat n + 1
                       | Band _ _ => 2 * Z.to_nat n + 1
                       end%nat in
           Ok (replicate taps (Num (1 / inject_Z (Z.of_nat taps))),
               Num 1 :: replicate (taps - 1) (Num 0))
      else Raise (ValueError
        "Digital filter critical frequencies must be 0 < Wn < 1")
  end.

Definition zero_phase (b a x : list sample) : result (list sample) :=
  if (3 * Nat.max (length a) (length b) <? length x)%nat
  then y ← convolve b x; Ok y
  else Raise (ValueError "The length of the input vector x must be greater than padlen")
.

(** A tabulated response on five frequencies up to Nyquist: flat, then a
    roll-off that passes through the transition thresholds. *)
Definition response (b : list sample) (a : denom sample) (fs : Q)
  : result (list Q * list Q) :=
  Ok (map (fun k => (inject_Z k * fs / 10)%Q) [0; 1; 2; 3; 4],
      [0; -1; -10; -30; -60]%Q).

(** A response so sharp that no grid frequency falls between the
    transition thresholds. *)
Definition sharp_response (b : list sample) (a : denom sample) (fs : Q)
  : result (list Q * list Q) :=
  Ok (map (fun k => (inject_Z k * fs / 10)%Q) [0; 1; 2; 3; 4],
      [0; 0; 0; -60; -60]%Q).

#[global] Instance substrate : Substrate sample := {|
  nan := NaN;
  isnan := is_nan;
  isnan_nan := eq_refl;
  firwin := fir_design;
  butter := iir_design;
  convolve_same := convolve;
  filtfilt := zero_phase;
  compute_frequency_response := response
|}.

Definition sharp_substrate : Substrate sample := {|
  nan := NaN;
  isnan := is_nan;
  isnan_nan := eq_refl;
  firwin := fir_design;
  butter := iir_design;
  convolve_same := convolve;
  filtfilt := zero_phase;
  compute_frequency_response := sharp_response
|}.

(** Eight samples, the first one missing. *)
Definition sig8 : list sample :=
  [NaN; Num 1; Num 2; Num 3; Num 4; Num 5; Num 6; Num 7].

End Exact.


(** ** Vocabulary of the further properties *)

(** The indices where the attenuation enters or leaves the band between
    [low] and [high]: the [inds] of [compute_transition_band]. *)
Definition band_crossings (db : list Q) (low high : Q) : list nat :=
  np_where (np_diff (map (fun d => Qlt_bool low d && Qlt_bool d high) db)).

(** The event is a call of the plotting collaborator. *)
Definition is_plot {F} (ev : event F) : bool :=
  match ev with
  | PlotFrequencyResponse _ _ _ => true
  | _ => false
  end.

(** The call has returned. *)
Definition returned_ok {A} (r : result A) : bool :=
  match r with Ok _ => true | Raise _ => false end.

(** The exact substrate with a response that never reaches the lower
    transition threshold. *)
Definition flat_substrate : Substrate Exact.sample := {|
  nan := Exact.NaN;
  isnan := Exact.is_nan;
  isnan_nan := eq_refl;
  firwin := Exact.fir_design;
  butter := Exact.iir_design;
  convolve_same := Exact.convolve;
  filtfilt := Exact.zero_phase;
  compute_frequency_response := fun _ _ fs =>
    Ok (map (fun k => (inject_Z k * fs / 10)%Q) [0; 1; 2; 3; 4],
        [0; -1; -3; -8; -15]%Q)
|}.

(** * Properties *)

(** ** The functions on small inputs *)

Example check_bandpass :
  check_filter_definition "bandpass" (FcTuple [PyNum 8; PyNum 12])
  = Ok (PyNum 8, PyNum 12).
Proof. reflexivity. Qed.

Example check_one_tuple :
  check_filter_definition "bandpass" (FcTuple [PyNum 8])
  = Raise (IndexError "tuple index out of range").
Proof. reflexivity. Qed.

Example fir_len_bandpass :
  _fir_checks "bandpass" (PyNum 8) (PyNum 12) 3 None 1000 5000 = Ok 375.
Proof. reflexivity. Qed.

(** The literal [0.1], a tie that goes to the even significand, and the
    overflow threshold. *)
Example round64_values :
  round64 (1 # 10) = Finite (3602879701896397 # 36028797018963968)
  /\ round64 9007199254740993 = Finite 9007199254740992
  /\ round64 9007199254740995 = Finite 9007199254740996
  /\ round64 (2 ^ 1024 - 2 ^ 970) = Infinite false.
Proof. repeat split; vm_compute; reflexivity. Qed.

(** The rounding of the operations moves the ceiling: [250 * 0.7 / 1.4] is
    125 on the doubles taken as rationals, and just above 125 once the
    product and the quotient are rounded. *)
Example fir_len_rounding :
  Qceiling (250 * double (7 # 10) / double (14 # 10)) = 125
  /\ raw_filt_len "lowpass" PyNone (PyNum (double (14 # 10)))
       (double (7 # 10)) None 250 = Ok 126
  /\ raw_filt_len "lowpass" PyNone (PyNum 20) 3 (Some (double (7 # 100))) 100
     = Ok 8.
Proof. repeat split; vm_compute; reflexivity. Qed.

Example transition_band_lowpass :
  compute_transition_band [0; 10; 20; 30; 40]%Q
    [0; -1; -10; -30; -60]%Q (-20) (-3) = Ok (20 - 10)%Q.
Proof. reflexivity. Qed.

Example transition_band_no_crossing :
  compute_transition_band [0; 10; 20; 30]%Q [0; 0; -60; -60]%Q (-20) (-3)
  = Raise (ValueError msg_zero_size).
Proof. reflexivity. Qed.

(** ** Results and the monad *)

Lemma result_bind_Ok {A B} (f : A -> result B) (m : result A) (b : B) :
  m ≫= f = Ok b <-> exists a, m = Ok a /\ f a = Ok b.
Proof.
  destruct m as [a|e]; simpl.
  - split; [intros H; by exists a | by intros (a' & [= ->] & H)].
  - split; [done | by intros (a' & [=] & _)].
Qed.

Lemma M_bind_outcome_Ok {F A B} (f : A -> M F B) (m : M F A) (b : B) :
  outcome (m ≫= f) = Ok b <-> exists a, outcome m = Ok a /\ outcome (f a) = Ok b.
Proof.
  unfold mbind, M_bind. destruct (outcome m) as [a|e]; simpl.
  - split; [intros H; by exists a | by intros (a' & [= ->] & H)].
  - split; [done | by intros (a' & [=] & _)].
Qed.

Lemma outcome_lift {F A} (r : result A) : outcome (lift (F := F) r) = r.
Proof. done. Qed.

(** ** Arithmetic of the filter length *)

Lemma force_odd_odd (n : Z) : Z.odd (force_odd n) = true.
Proof.
  unfold force_odd. pose proof (Zmod_odd n) as H.
  destruct (Z.eqb_spec (n mod 2) 0) as [E|E].
  - rewrite Z.add_1_r, Z.odd_succ, <- Z.negb_odd.
    destruct (Z.odd n); [lia | done].
  - destruct (Z.odd n); [done | lia].
Qed.

Lemma force_odd_next (n : Z) : n <= force_odd n <= n + 1.
Proof. unfold force_odd. destruct (n mod 2 =? 0); lia. Qed.

Lemma force_odd_fixes_odd (n : Z) : Z.odd n = true -> force_odd n = n.
Proof.
  intros H. unfold force_odd. rewrite Zmod_odd, H. done.
Qed.

Lemma force_odd_alt (n : Z) :
  force_odd n = if Z.odd n then n else n + 1.
Proof. unfold force_odd. rewrite Zmod_odd. by destruct (Z.odd n). Qed.

(** [round64] stays within half a unit in the last place. *)
Lemma round_half_even_near (q : Q) :
  (Qabs (inject_Z (round_half_even q) - q) <= 1 # 2)%Q.
Proof.
  unfold round_half_even.
  pose proof (Qfloor_le q) as Hlo. pose proof (Qlt_floor q) as Hhi.
  rewrite inject_Z_plus in Hhi. change (inject_Z 1) with 1%Q in Hhi.
  apply Qabs_Qle_condition.
  destruct (Qcompare_spec (q - inject_Z (Qfloor q)) (1 # 2)) as [E|E|E].
  - destruct (Z.even (Qfloor q)).
    + lra.
    + rewrite inject_Z_plus. change (inject_Z 1) with 1%Q. lra.
  - lra.
  - rewrite inject_Z_plus. change (inject_Z 1) with 1%Q. lra.
Qed.

Lemma round64_near (q x : Q) :
  round64 q = Finite x ->
  (Qabs (x - q) <= (1 # 2) * 2 ^ ulp_exponent q)%Q.
Proof.
  assert (0 < 2 ^ ulp_exponent q)%Q as Hpos by (by apply Qpower_0_lt).
  unfold round64. destruct (Qeq_bool q 0) eqn:E0.
  - intros [= <-]. apply Qeq_bool_iff in E0.
    apply Qabs_Qle_condition. lra.
  - cbv zeta. destruct (Qle_bool _ _); [done|]. intros [= <-].
    rewrite Qred_correct.
    pose proof (round_half_even_near (q / 2 ^ ulp_exponent q)) as H.
    set (m := inject_Z (round_half_even (q / 2 ^ ulp_exponent q))) in *.
    set (p := (2 ^ ulp_exponent q)%Q) in *.
    assert (m * p - q == (m - q / p) * p)%Q as -> by (field; lra).
    rewrite Qabs_Qmult, (Qabs_pos p) by lra.
    apply Qmult_le_compat_r; [done | lra].
Qed.

Lemma Qceiling_half (z : Z) : Qceiling (inject_Z z / 2) = (z + 1) / 2.
Proof.
  unfold Qceiling, Qfloor, Qdiv, Qmult, Qinv, Qopp, inject_Z. simpl.
  rewrite Z.mul_1_r. Z.to_euclidean_division_equations. lia.
Qed.

(** ** Removing and restoring NaN *)

Section Nans.
Context {F : Type} {Sub : Substrate F}.
Implicit Types (sig y dst src : list F) (mask : list bool).

Lemma put_mask_length dst mask src :
  length (put_mask dst mask src) = length dst.
Proof.
  revert mask src. induction dst as [|d dst IH]; intros [|[] mask] src;
    simpl; try done.
  - destruct src; simpl; by rewrite IH.
  - by rewrite IH.
Qed.

Lemma setitem_mask_length dst mask src out :
  setitem_mask dst mask src = Ok out -> length out = length dst.
Proof.
  unfold setitem_mask. intros H.
  destruct src as [|x [|x' src]]; try case_match; simplify_eq;
    apply put_mask_length.
Qed.

Lemma setitem_mask_exact dst mask src :
  length src = count_true mask ->
  setitem_mask dst mask src = Ok (put_mask dst mask src).
Proof.
  intros H. unfold setitem_mask. rewrite <- H, Nat.eqb_refl.
  by destruct src as [|x [|x' src]].
Qed.

Lemma count_true_valid sig :
  count_true (map negb (map isnan sig)) = n_valid sig.
Proof.
  unfold count_true, n_valid. simpl.
  induction sig as [|x sig IH]; simpl; [done|].
  destruct (isnan x); simpl; by rewrite IH.
Qed.

Lemma _restore_nans_length y nans out :
  _restore_nans y nans = Ok out -> length out = length nans.
Proof.
  unfold _restore_nans. intros H%setitem_mask_length.
  by rewrite length_replicate in H.
Qed.

(** Restoring puts sample [rank sig i] of the filtered array at position
    [i], and [np.nan] where the signal had a NaN. *)
Lemma put_mask_lookup sig y i x :
  sig !! i = Some x ->
  put_mask (replicate (length sig) nan) (map negb (map isnan sig)) y !! i
  = Some (if isnan x then nan else default nan (y !! rank sig i)).
Proof.
  unfold rank, n_valid. simpl.
  revert y i. induction sig as [|x0 sig IH]; intros y i Hi; [done|].
  simpl. destruct (isnan x0) eqn:Hx0; simpl.
  - destruct i as [|i]; simpl in *.
    + simplify_eq. by rewrite Hx0.
    + rewrite Hx0. by apply IH.
  - destruct y as [|v y]; destruct i as [|i]; simpl in *; simplify_eq;
      rewrite ?Hx0; simpl; try done.
    + rewrite IH by done. by destruct (isnan x).
    + by apply IH.
Qed.

Lemma remove_nans_roundtrip sig :
  put_mask (replicate (length sig) nan) (map negb (map isnan sig))
    (_remove_nans sig).1 = map canonical sig.
Proof.
  simpl. induction sig as [|x sig IH]; [done|].
  unfold canonical at 1. simpl. destruct (isnan x); simpl; by rewrite IH.
Qed.

Lemma isnan_canonical x : isnan (canonical x) = isnan x.
Proof.
  unfold canonical. destruct (isnan x) eqn:H; [apply isnan_nan | done].
Qed.

Lemma n_valid_app sig1 sig2 :
  n_valid (sig1 ++ sig2) = (n_valid sig1 + n_valid sig2)%nat.
Proof. unfold n_valid. simpl. by rewrite List.filter_app, length_app. Qed.

(** A sample that is not NaN has a place in the stripped signal. *)
Lemma rank_lt_n_valid sig i x :
  sig !! i = Some x -> isnan x = false -> (rank sig i < n_valid sig)%nat.
Proof.
  intros Hi Hx. unfold rank.
  rewrite <- (take_drop i sig) at 2. rewrite n_valid_app.
  rewrite (drop_S _ _ _ Hi). unfold n_valid at 3. simpl. rewrite Hx. simpl. lia.
Qed.

Lemma n_valid_no_nan sig :
  Forall (fun x => isnan x = false) sig -> n_valid sig = length sig.
Proof.
  unfold n_valid. simpl.
  induction 1 as [|x l Hx _ IH]; simpl; [done|]. rewrite Hx. simpl. by rewrite IH.
Qed.

Lemma rank_no_nan sig i :
  Forall (fun x => isnan x = false) sig -> (i <= length sig)%nat ->
  rank sig i = i.
Proof.
  intros Hall Hi. unfold rank.
  rewrite n_valid_no_nan by (by apply Forall_take).
  by apply length_take_le.
Qed.

Lemma _restore_nans_lookup y sig out :
  _restore_nans y (map isnan sig) = Ok out ->
  (length y = 1%nat -> (n_valid sig <= 1)%nat) ->
  forall i x, sig !! i = Some x ->
    out !! i = Some (if isnan x then nan else default nan (y !! rank sig i)).
Proof.
  unfold _restore_nans, setitem_mask. rewrite length_map, count_true_valid.
  intros Hout Hone i x Hi.
  destruct y as [|v [|v' y]].
  - case_match; [|done]. simplify_eq. by apply put_mask_lookup.
  - simplify_eq. specialize (Hone eq_refl).
    destruct (n_valid sig) as [|[|n]] eqn:Hn; [| |lia].
    + rewrite (put_mask_lookup _ _ _ _ Hi).
      destruct (isnan x) eqn:Hx; [done|].
      pose proof (rank_lt_n_valid _ _ _ Hi Hx). lia.
    + by apply put_mask_lookup.
  - case_match; [|done]. simplify_eq. by apply put_mask_lookup.
Qed.

End Nans.

(** ** Edge removal *)

Section Edges.
Context {F : Type} {Sub : Substrate F}.
Implicit Types (sig y : list F).

Lemma edge_width_half (n : nat) : edge_width n = ((n + 1) / 2)%nat.
Proof.
  unfold edge_width. rewrite Qceiling_half.
  apply Nat2Z.inj. rewrite Nat2Z.inj_div, Nat2Z.inj_add, Z2Nat.id; [done|].
  apply Z.div_pos; lia.
Qed.

Lemma edge_width_odd (n : nat) :
  Z.odd (Z.of_nat n) = true -> (0 < edge_width n)%nat.
Proof.
  intros H. rewrite edge_width_half.
  destruct n as [|n]; [done|].
  replace (S n + 1)%nat with (n + 1 * 2)%nat by lia.
  rewrite Nat.div_add by done. lia.
Qed.

Lemma tail_start_le (len n : nat) : (tail_start len n <= len)%nat.
Proof. unfold tail_start. destruct (n =? 0)%nat; lia. Qed.

Lemma _drop_edge_artifacts_length y (filt_len : nat) :
  length (_drop_edge_artifacts y filt_len) = length y.
Proof.
  unfold _drop_edge_artifacts. fold (edge_width filt_len).
  set (n := edge_width filt_len).
  assert (Hlen : length (replicate (n `min` length y) nan ++ drop n y)
                 = length y).
  { rewrite length_app, length_replicate, length_drop. lia. }
  rewrite length_app, length_take, length_replicate, Hlen.
  pose proof (tail_start_le (length y) n). lia.
Qed.

(** After edge removal a sample is NaN when it lies within [edge_width] of
    either end, or was NaN already. *)
Lemma _drop_edge_artifacts_nan_at y (filt_len j : nat) :
  (j < length y)%nat ->
  nan_at (_drop_edge_artifacts y filt_len) j
  = (j <? edge_width filt_len)%nat
    || (tail_start (length y) (edge_width filt_len) <=? j)%nat
    || nan_at y j.
Proof.
  intros Hj. unfold _drop_edge_artifacts, nan_at.
  fold (edge_width filt_len). set (n := edge_width filt_len).
  assert (Hlen : length (replicate (n `min` length y) nan ++ drop n y)
                 = length y).
  { rewrite length_app, length_replicate, length_drop. lia. }
  rewrite Hlen. set (start := tail_start (length y) n).
  destruct (Nat.leb_spec start j) as [Hs|Hs].
  - rewrite lookup_app_r by (rewrite length_take; lia).
    rewrite lookup_replicate_2 by (rewrite length_take; lia).
    rewrite isnan_nan. by rewrite orb_true_r.
  - rewrite lookup_app_l by (rewrite length_take; lia).
    rewrite lookup_take_lt by done. rewrite orb_false_r.
    destruct (Nat.ltb_spec j n) as [Hn|Hn].
    + rewrite lookup_app_l by (rewrite length_replicate; lia).
      rewrite lookup_replicate_2 by lia. by rewrite isnan_nan.
    + rewrite lookup_app_r by (rewrite length_replicate; lia).
      rewrite length_replicate, lookup_drop.
      by replace (n + (j - n `min` length y))%nat with j by lia.
Qed.

End Edges.

(** ** Reductions on the frequency response *)

Lemma fold_min_le (acc : Q) (xs : list Q) :
  (foldl (fun m y => if Qlt_bool y m then y else m) acc xs <= acc)%Q
  /\ Forall (fun d => (foldl (fun m y => if Qlt_bool y m then y else m) acc xs
                       <= d)%Q) xs.
Proof.
  revert acc. induction xs as [|y xs IH]; intros acc; simpl.
  - split; [apply Qle_refl | constructor].
  - destruct (IH (if Qlt_bool y acc then y else acc)) as [Hacc Hall].
    assert ((if Qlt_bool y acc then y else acc) <= acc
            /\ (if Qlt_bool y acc then y else acc) <= y)%Q as [H1 H2].
    { unfold Qlt_bool. destruct (Qle_bool acc y) eqn:E; simpl.
      - split; [apply Qle_refl | by apply Qle_bool_iff].
      - split; [|apply Qle_refl]. apply Qlt_le_weak, Qnot_le_lt.
        intros H%Qle_bool_iff. congruence. }
    split; [by eapply Qle_trans|]. constructor; [by eapply Qle_trans|done].
Qed.

Lemma np_min_le (db : list Q) (m : Q) :
  np_min db = Ok m -> Forall (fun d => (m <= d)%Q) db.
Proof.
  destruct db as [|x xs]; [done|]. intros [= <-].
  destruct (fold_min_le x xs). by constructor.
Qed.

Lemma np_min_Ok (db : list Q) (d : Q) :
  d ∈ db -> exists m, np_min db = Ok m /\ (m <= d)%Q.
Proof.
  intros Hd. destruct db as [|x xs]; [by apply elem_of_nil in Hd|].
  eexists. split; [done|].
  pose proof (np_min_le (x :: xs) _ eq_refl) as H.
  by apply (proj1 (Forall_forall _ _) H).
Qed.

Lemma np_diff_all_false (mask : list bool) :
  Forall (fun b => b = false) mask -> Forall (fun b => b = false) (np_diff mask).
Proof.
  induction 1 as [|a mask Ha Hm IH]; [constructor|].
  destruct Hm as [|b mask Hb Hm]; [constructor|].
  simpl in *. constructor; [by rewrite Ha, Hb | done].
Qed.

Lemma np_where_all_false (i : nat) (mask : list bool) :
  Forall (fun b => b = false) mask -> np_where_from i mask = [].
Proof.
  intros H. revert i. induction H as [|a mask -> _ IH]; intros i; simpl; auto.
Qed.

Lemma compute_transition_band_no_crossing (f_db db : list Q) (low high : Q) :
  Forall (fun d => (d <= low)%Q \/ (high <= d)%Q) db ->
  compute_transition_band f_db db low high = Raise (ValueError msg_zero_size).
Proof.
  intros H. unfold compute_transition_band, np_where.
  rewrite np_where_all_false; [done|].
  apply np_diff_all_false, Forall_fmap. eapply Forall_impl; [exact H|].
  intros d [Hd | Hd]; simpl; unfold Qlt_bool;
    apply Qle_bool_iff in Hd; rewrite Hd; simpl; [done|apply andb_false_r].
Qed.
(** ** The outcome of the filtering functions *)

Section Outcomes.
Context {F : Type} {Sub : Substrate F}.

Lemma outcome_bind {A B} (m : M F A) (f : A -> M F B) :
  outcome (m ≫= f) = outcome m ≫= (fun a => outcome (f a)).
Proof. unfold mbind, M_bind, result_bind. by destruct (outcome m). Qed.

Lemma outcome_when_if (b : bool) (m : M F unit) :
  outcome (when b m) = if b then outcome m else Ok tt.
Proof. by destruct b. Qed.

Lemma outcome_plot fs (b : list F) a :
  outcome (plot_frequency_response fs b a) = Ok tt.
Proof. done. Qed.

Lemma events_bind {A B} (m : M F A) (f : A -> M F B) :
  events (m ≫= f)
  = events m ++ match outcome m with Ok a => events (f a) | Raise _ => [] end.
Proof.
  unfold mbind, M_bind. destruct (outcome m); simpl; [done|].
  by rewrite app_nil_r.
Qed.

Lemma _iir_checks_run (n_seconds : option Q) (order : option Z) (rea : bool) :
  _iir_checks (F := F) n_seconds order rea
  = mkM (if rea then [Warn msg_iir_edge []] else [])
        (match n_seconds, order with
         | Some _, _ => Raise IncompatibleOption
         | None, None => Raise MissingOrder
         | None, Some _ => Ok tt
         end).
Proof. by destruct n_seconds, order, rea. Qed.

Lemma design_iir_filter_events pass_type fc (order : option Z) fs :
  String.eqb pass_type "bandstop" = false ->
  exists rest,
    events (design_iir_filter (F := F) pass_type fc order fs)
    = Warn msg_iir_notch [] :: rest.
Proof.
  intros H. unfold design_iir_filter. rewrite H, events_bind. simpl. eauto.
Qed.

Lemma filter_signal_fir_outcome (sig : list F) fs pass_type fc n_cycles
  n_seconds (plot rk ctb rea : bool) :
  outcome (filter_signal_fir sig fs pass_type fc n_cycles n_seconds
             plot rk ctb rea)
  = (kern ← design_fir_filter pass_type fc n_cycles n_seconds fs (length sig);
     (if ctb
      then outcome (check_filter_properties kern DenomOne fs pass_type fc
                      default_transitions)
      else Ok tt);;
     y ← convolve_same kern (_remove_nans sig).1;
     out ← _restore_nans
             (if rea then _drop_edge_artifacts y (length kern) else y)
             (_remove_nans sig).2;
     Ok (out, if rk then Some (FirKernel kern) else None)).
Proof.
  unfold filter_signal_fir, _remove_nans, mbind, M_bind, result_bind, lift.
  cbn [outcome events fst snd].
  destruct (design_fir_filter _ _ _ _ _ _) as [kern|e]; [|done].
  rewrite outcome_when_if.
  destruct (if ctb then _ else _) as [[]|e]; [|done].
  destruct (convolve_same _ _) as [y|e]; [|done].
  destruct (_restore_nans _ _) as [out|e]; [|done].
  by destruct plot, rk.
Qed.

Lemma filter_signal_iir_outcome (sig : list F) fs pass_type fc order
  (plot rk ctb : bool) :
  outcome (filter_signal_iir sig fs pass_type fc order plot rk ctb)
  = ('(b_vals, a_vals) ← outcome (design_iir_filter pass_type fc order fs);
     (if ctb
      then outcome (check_filter_properties b_vals (DenomVals a_vals) fs
                      pass_type fc default_transitions)
      else Ok tt);;
     y ← filtfilt b_vals a_vals (_remove_nans sig).1;
     out ← _restore_nans y (_remove_nans sig).2;
     Ok (out, if rk then Some (IirKernel b_vals a_vals) else None)).
Proof.
  unfold filter_signal_iir, _remove_nans, mbind at 1, M_bind at 1,
    mbind at 4, result_bind at 1.
  destruct (outcome (design_iir_filter _ _ _ _)) as [[b_vals a_vals]|e];
    [|done].
  unfold mbind, M_bind, result_bind, lift. cbn [outcome events fst snd].
  rewrite outcome_when_if.
  destruct (if ctb then _ else _) as [[]|e]; [|done].
  destruct (filtfilt _ _ _) as [y|e]; [|done].
  destruct (_restore_nans _ _) as [out|e]; [|done].
  by destruct plot, rk.
Qed.

(** The last three calls of [check_filter_properties], one case each. *)
Ltac band_cases :=
  destruct (compute_pass_band _ _ _); [|done];
  destruct (compute_transition_band _ _ _ _); [|done];
  destruct (py_gt _ _) as [[]|]; done.

Lemma check_filter_properties_outcome (b : list F) a fs pass_type fc tr :
  outcome (check_filter_properties b a fs pass_type fc tr)
  = ('(f_lo, f_hi) ← check_filter_definition pass_type fc;
     '(f_db, db) ← compute_frequency_response b a fs;
     lowest ← np_min db;
     if Qle_bool tr.1 lowest then Ok tt
     else
       (if String.eqb pass_type "bandpass"
        then d0 ← first_item db;
             if Qle_bool tr.1 d0 then Ok tt
             else dn ← last_item db; Ok tt
        else Ok tt);;
       pass_bw ← compute_pass_band pass_type fc fs;
       transition_bw ← compute_transition_band f_db db tr.1 tr.2;
       wide ← py_gt (PyNum transition_bw) pass_bw;
       Ok tt).
Proof.
  unfold check_filter_properties, mbind, M_bind, result_bind, lift, when.
  cbn [outcome events].
  destruct (check_filter_definition pass_type fc) as [[f_lo f_hi]|e]; [|done].
  destruct (compute_frequency_response b a fs) as [[f_db db]|e]; [|done].
  destruct (np_min db) as [lowest|e]; [|done].
  destruct (Qle_bool tr.1 lowest); [done|].
  destruct (String.eqb pass_type "bandpass").
  - destruct (first_item db) as [d0|e]; [|done]. cbn [outcome events].
    destruct (Qle_bool tr.1 d0); cbn [outcome events warn emit].
    + band_cases.
    + destruct (last_item db) as [dn|e]; [|done]. cbn [outcome events].
      destruct (Qle_bool tr.1 dn); cbn [outcome events warn emit mret M_ret];
        band_cases.
  - cbn [outcome events mret M_ret]. band_cases.
Qed.

(** With a stopband but no grid frequency between the two thresholds, the
    transition band has no crossing to measure and the check raises. *)
Lemma check_filter_properties_no_crossing (b : list F) a fs pass_type fc
  f_lo f_hi f_db db d :
  check_filter_definition pass_type fc = Ok (f_lo, f_hi) ->
  compute_frequency_response b a fs = Ok (f_db, db) ->
  d ∈ db -> (d < -20)%Q ->
  Forall (fun d => (d <= -20)%Q \/ (-3 <= d)%Q) db ->
  exists e,
    outcome (check_filter_properties b a fs pass_type fc default_transitions)
    = Raise e
    /\ (forall bw, compute_pass_band pass_type fc fs = Ok bw ->
                   e = ValueError msg_zero_size).
Proof.
  intros Hc Hr Hd Hlt Hall.
  destruct (np_min_Ok db d Hd) as (m & Hm & Hmd).
  assert (Qle_bool (-20) m = false) as Hmin.
  { destruct (Qle_bool (-20) m) eqn:E; [|done]. apply Qle_bool_iff in E.
    exfalso. apply (Qlt_irrefl d). eapply Qlt_le_trans; [exact Hlt|].
    by eapply Qle_trans. }
  assert (exists x, first_item db = Ok x) as [x0 Hx0]
    by (destruct db; [by apply elem_of_nil in Hd | by eexists]).
  assert (exists x, last_item db = Ok x) as [xn Hxn].
  { unfold last_item. destruct (last db) eqn:E; [by eexists|].
    apply last_None in E. subst. by apply elem_of_nil in Hd. }
  rewrite check_filter_properties_outcome, Hc. simpl. rewrite Hr. simpl.
  rewrite Hm. simpl. rewrite Hmin, Hx0, Hxn.
  rewrite (compute_transition_band_no_crossing f_db db (-20) (-3) Hall).
  destruct (compute_pass_band pass_type fc fs) as [bw|e] eqn:Hbw.
  - exists (ValueError msg_zero_size). split; [|done].
    destruct (String.eqb pass_type "bandpass"); simpl; [|done].
    by destruct (Qle_bool (-20) x0).
  - exists e. split; [|done].
    destruct (String.eqb pass_type "bandpass"); simpl; [|done].
    by destruct (Qle_bool (-20) x0).
Qed.

(** What [filter_signal] returns with the checks and the plot switched on,
    it returns with them switched off. *)
Lemma filter_signal_without_checks (sig : list F) fs pass_type fc n_cycles
  n_seconds (iir : bool) order (plot plot' rk ctb rea : bool) r :
  outcome (filter_signal sig fs pass_type fc n_cycles n_seconds iir order
             plot rk ctb rea) = Ok r ->
  outcome (filter_signal sig fs pass_type fc n_cycles n_seconds iir order
             plot' rk false rea) = Ok r.
Proof.
  unfold filter_signal. destruct iir.
  - rewrite !outcome_bind, !filter_signal_iir_outcome.
    destruct (outcome (_iir_checks _ _ _)) as [[]|e]; simpl; [|done].
    destruct (outcome (design_iir_filter _ _ _ _)) as [[b_vals a_vals]|e];
      simpl; [|done].
    destruct ctb; [|done].
    by destruct (outcome (check_filter_properties _ _ _ _ _ _)) as [[]|e].
  - rewrite !filter_signal_fir_outcome.
    destruct (design_fir_filter _ _ _ _ _ _) as [kern|e]; simpl; [|done].
    destruct ctb; [|done].
    by destruct (outcome (check_filter_properties _ _ _ _ _ _)) as [[]|e].
Qed.

(** Two calls of [filter_signal] that differ in [compute_transition_band]
    and [plot_freq_response] only, and both return, return the same filtered
    signal and the same kernel. *)
Lemma filter_signal_flags_agree (sig : list F) fs pass_type fc n_cycles
  n_seconds (iir : bool) order (plot plot' rk ctb ctb' rea : bool) r r' :
  outcome (filter_signal sig fs pass_type fc n_cycles n_seconds iir order
             plot rk ctb rea) = Ok r ->
  outcome (filter_signal sig fs pass_type fc n_cycles n_seconds iir order
             plot' rk ctb' rea) = Ok r' ->
  r = r'.
Proof.
  intros H%(filter_signal_without_checks _ _ _ _ _ _ _ _ _ false)
         H'%(filter_signal_without_checks _ _ _ _ _ _ _ _ _ false).
  congruence.
Qed.

End Outcomes.

(** ** The filter definition checks *)

Lemma str_in_pass_types (pass_type : string) :
  str_in pass_type ["bandpass"; "bandstop"; "lowpass"; "highpass"] = true ->
  pass_type = "bandpass" \/ pass_type = "bandstop" \/ pass_type = "lowpass"
  \/ pass_type = "highpass".
Proof.
  unfold str_in. simpl. rewrite !orb_true_iff, !String.eqb_eq.
  intros [H|[H|[H|[H|H]]]]; auto; discriminate.
Qed.

Lemma check_filter_definition_pass_type pass_type fc r :
  check_filter_definition pass_type fc = Ok r ->
  pass_type = "bandpass" \/ pass_type = "bandstop" \/ pass_type = "lowpass"
  \/ pass_type = "highpass".
Proof.
  unfold check_filter_definition. intros H. apply str_in_pass_types.
  by destruct (str_in pass_type _).
Qed.

(** What a band definition that passes the check looks like: a tuple of
    two numbers in strictly increasing order, or a list of two items. *)
Lemma check_band_Ok pass_type fc f_lo f_hi :
  pass_type = "bandpass" \/ pass_type = "bandstop" ->
  check_filter_definition pass_type fc = Ok (f_lo, f_hi) ->
  (exists a b, fc = FcTuple [PyNum a; PyNum b] /\ (a < b)%Q
               /\ f_lo = PyNum a /\ f_hi = PyNum b)
  \/ fc = FcList [f_lo; f_hi].
Proof.
  intros [-> | ->]; unfold check_filter_definition; simpl;
    (destruct fc as [q|[|[|a] [|[|b] [|c t]]]|[|a [|b [|c t]]]]; simpl;
     try done; try (destruct (Qle_bool _ _); done);
     try (intros [= <- <-]; by right);
     destruct (Qle_bool b a) eqn:Hle; simpl; [done|];
     intros [= <- <-]; left; exists a, b; repeat split; try done;
     apply Qnot_le_lt; intros Hab%Qle_bool_iff; congruence).
Qed.

Lemma check_lowpass_Ok fc f_lo f_hi :
  check_filter_definition "lowpass" fc = Ok (f_lo, f_hi) ->
  f_lo = PyNone /\
  match fc with
  | FcNum q => f_hi = PyNum q
  | FcTuple t => t !! 1%nat = Some f_hi
  | FcList _ => False
  end.
Proof.
  unfold check_filter_definition; simpl. destruct fc as [q|t|t]; simpl.
  - by intros [= <- <-].
  - unfold getitem. destruct (t !! 1%nat); simpl; [|done]. by intros [= <- <-].
  - done.
Qed.

Lemma check_highpass_Ok fc f_lo f_hi :
  check_filter_definition "highpass" fc = Ok (f_lo, f_hi) ->
  f_hi = PyNone /\
  match fc with
  | FcNum q => f_lo = PyNum q
  | FcTuple t => t !! 0%nat = Some f_lo
  | FcList _ => False
  end.
Proof.
  unfold check_filter_definition; simpl. destruct fc as [q|t|t]; simpl.
  - by intros [= <- <-].
  - unfold getitem. destruct (t !! 0%nat); simpl; [|done]. by intros [= <- <-].
  - done.
Qed.

(** The band edge that [_fir_checks] divides by is the reference frequency
    of a cutoff given as a number or a tuple. *)
Lemma reference_frequency_checked pass_type fc f_lo f_hi q :
  check_filter_definition pass_type fc = Ok (f_lo, f_hi) ->
  reference_frequency pass_type fc = Some q ->
  (if String.eqb pass_type "lowpass" then f_hi else f_lo) = PyNum q.
Proof.
  intros Hc. unfold reference_frequency.
  destruct (check_filter_definition_pass_type _ _ _ Hc)
    as [-> | [-> | [-> | ->]]]; simpl.
  - destruct (check_band_Ok _ _ _ _ (or_introl eq_refl) Hc)
      as [(a & b & -> & _ & -> & _) | ->]; simpl; [|done]. by intros [= ->].
  - destruct (check_band_Ok _ _ _ _ (or_intror eq_refl) Hc)
      as [(a & b & -> & _ & -> & _) | ->]; simpl; [|done]. by intros [= ->].
  - destruct (check_lowpass_Ok _ _ _ Hc) as [_ H].
    destruct fc as [q'|[|x [|[|y] t]]|t]; simpl in *; intros; by simplify_eq.
  - destruct (check_highpass_Ok _ _ _ Hc) as [_ H].
    destruct fc as [q'|[|[|x] t]|t]; simpl in *; intros; by simplify_eq.
Qed.

Lemma _fir_checks_Ok pass_type f_lo f_hi n_cycles n_seconds fs sig_length n :
  _fir_checks pass_type f_lo f_hi n_cycles n_seconds fs sig_length = Ok n ->
  exists raw,
    raw_filt_len pass_type f_lo f_hi n_cycles n_seconds fs = Ok raw
    /\ n = force_odd raw /\ n < Z.of_nat sig_length.
Proof.
  unfold _fir_checks. destruct (raw_filt_len _ _ _ _ _ _) as [raw|e];
    simpl; [|done].
  destruct (Z.geb_spec (force_odd raw) (Z.of_nat sig_length)); [done|].
  intros [= <-]. by exists raw.
Qed.

(** The parts of the cutoff validation that raise [InvalidFilterDefinition]. *)

Lemma check_unknown_pass_type pass_type fc :
  str_in pass_type ["bandpass"; "bandstop"; "lowpass"; "highpass"] = false ->
  check_filter_definition pass_type fc = Raise (ValueError msg_passtype).
Proof. intros H. unfold check_filter_definition. by rewrite H. Qed.

Lemma check_band_single_cutoff pass_type q :
  pass_type = "bandpass" \/ pass_type = "bandstop" ->
  check_filter_definition pass_type (FcNum q)
  = Raise (ValueError msg_two_required).
Proof. by intros [-> | ->]. Qed.

Lemma check_band_unordered pass_type a b t :
  pass_type = "bandpass" \/ pass_type = "bandstop" ->
  (b <= a)%Q ->
  check_filter_definition pass_type (FcTuple (PyNum a :: PyNum b :: t))
  = Raise (ValueError msg_second_greater).
Proof.
  intros Hp Hle%Qle_bool_iff.
  destruct Hp as [-> | ->]; unfold check_filter_definition; simpl;
    by rewrite Hle.
Qed.

Lemma check_band_too_many pass_type a b c t :
  pass_type = "bandpass" \/ pass_type = "bandstop" ->
  exists e,
    check_filter_definition pass_type
      (FcTuple (PyNum a :: PyNum b :: c :: t)) = Raise e
    /\ InvalidFilterDefinition e.
Proof.
  intros Hp. destruct (Qle_bool b a) eqn:Hle.
  - exists (ValueError msg_second_greater). split; [|by eexists].
    destruct Hp as [-> | ->]; unfold check_filter_definition; simpl;
      by rewrite Hle.
  - exists (ValueError msg_two_required). split; [|by eexists].
    destruct Hp as [-> | ->]; unfold check_filter_definition; simpl;
      by rewrite Hle.
Qed.

Section Design.
Context {F : Type} {Sub : Substrate F}.

Lemma design_fir_filter_Ok pass_type fc n_cycles n_seconds fs sig_length
  (kern : list F) :
  design_fir_filter pass_type fc n_cycles n_seconds fs sig_length = Ok kern ->
  exists f_lo f_hi raw c pass_zero,
    check_filter_definition pass_type fc = Ok (f_lo, f_hi)
    /\ raw_filt_len pass_type f_lo f_hi n_cycles n_seconds fs = Ok raw
    /\ force_odd raw < Z.of_nat sig_length
    /\ firwin (force_odd raw) c pass_zero (compute_nyquist fs) = Ok kern.
Proof.
  unfold design_fir_filter. intros H.
  destruct (check_filter_definition pass_type fc) as [[f_lo f_hi]|e] eqn:Hc;
    simpl in H; [|done].
  destruct (_fir_checks _ _ _ _ _ _ _) as [n|e] eqn:Hf; simpl in H; [|done].
  apply _fir_checks_Ok in Hf as (raw & Hraw & -> & Hlt).
  exists f_lo, f_hi, raw.
  repeat case_match; try done; eauto 10.
Qed.

Lemma design_fir_filter_length pass_type fc n_cycles n_seconds fs sig_length
  (kern : list F) :
  firwin_length ->
  design_fir_filter pass_type fc n_cycles n_seconds fs sig_length = Ok kern ->
  Z.odd (Z.of_nat (length kern)) = true.
Proof.
  intros Hfw (f_lo & f_hi & raw & c & pz & _ & _ & _ & H)%design_fir_filter_Ok.
  apply Hfw in H. rewrite H. apply force_odd_odd.
Qed.

End Design.

(** ** The exact substrate meets the contracts *)

Module ExactFacts.
Import Exact.

Lemma add_arrays_length u v :
  length (add_arrays u v) = Nat.max (length u) (length v).
Proof.
  revert v. induction u as [|x u IH]; intros [|y v]; simpl; try done.
  by rewrite IH.
Qed.

Lemma convolve_full_length a v :
  a <> [] -> v <> [] ->
  length (convolve_full a v) = (length a + length v - 1)%nat.
Proof.
  intros Ha Hv. induction a as [|x a IH]; [done|].
  destruct a as [|x' a].
  - simpl. rewrite length_map. lia.
  - change (convolve_full (x :: x' :: a) v)
      with (add_arrays (map (smul x) v) (Num 0 :: convolve_full (x' :: a) v)).
    rewrite add_arrays_length, length_map, length_cons, IH by done.
    rewrite (length_cons x). destruct v; [done|]. rewrite !length_cons. lia.
Qed.

Lemma convolve_Ok a v y :
  convolve a v = Ok y ->
  a <> [] /\ v <> [] /\
  y = take (Nat.max (length a) (length v))
        (drop ((Nat.min (length a) (length v) - 1) / 2) (convolve_full a v)).
Proof.
  unfold convolve. destruct a as [|x a]; [done|]. destruct v as [|z v]; [done|].
  intros H. split; [done|]. split; [done|]. congruence.
Qed.

Lemma convolve_length : convolve_same_length.
Proof.
  intros k s y (Hk & Hs & ->)%convolve_Ok.
  rewrite length_take, length_drop, convolve_full_length by done.
  assert (((length k `min` length s - 1) / 2 <= length k `min` length s - 1)%nat)
    by (apply Nat.Div0.div_le_upper_bound; lia).
  destruct k; [done|]. destruct s; [done|]. rewrite !length_cons in *. lia.
Qed.

Lemma fir_design_length : firwin_length.
Proof.
  intros n c pz nyq k. simpl. unfold fir_design.
  destruct (valid_band nyq c) as [ok|e]; simpl; [|done].
  destruct ok; simpl; [|done].
  destruct (Z.ltb_spec 0 n); [|done].
  intros [= <-]. rewrite length_replicate. lia.
Qed.

Lemma fir_design_rejects_nyquist : firwin_rejects_nyquist.
Proof.
  intros n f pz nyq _ Hle. simpl. unfold fir_design. simpl.
  assert (Qlt_bool f nyq = false) as ->.
  { unfold Qlt_bool. by apply Qle_bool_iff in Hle as ->. }
  rewrite andb_false_r. simpl. by eexists.
Qed.

Lemma iir_design_rejects_nyquist : butter_rejects_nyquist.
Proof.
  intros n wn btype Hle. simpl.
  assert (Qlt_bool wn 1 = false) as ->.
  { unfold Qlt_bool. by apply Qle_bool_iff in Hle as ->. }
  rewrite andb_false_r. simpl. by eexists.
Qed.

End ExactFacts.

(** ** The NaN of the FIR output *)

Section FirNans.
Context {F : Type} {Sub : Substrate F}.

Lemma fir_output_nan_positions (sig : list F) fs pass_type fc
  n_cycles n_seconds (plot rk ctb rea : bool) kern out k :
  firwin_length ->
  convolve_same_length ->
  design_fir_filter pass_type fc n_cycles n_seconds fs (length sig) = Ok kern ->
  (forall y, convolve_same kern (_remove_nans sig).1 = Ok y ->
             Forall (fun x => isnan x = false) y) ->
  outcome (filter_signal_fir sig fs pass_type fc n_cycles n_seconds
             plot rk ctb rea) = Ok (out, k) ->
  length out = length sig
  /\ nan_at_stripped_edges sig (length kern) rea out.
Proof.
  intros Hfw Hcv Hd Hclean. rewrite filter_signal_fir_outcome, Hd.
  intros H. apply result_bind_Ok in H as (kern' & [= <-] & H).
  apply result_bind_Ok in H as (_ & _ & H).
  apply result_bind_Ok in H as (y & Hy & H).
  apply result_bind_Ok in H as (out' & Hr & [= <- <-]).
  pose proof (_restore_nans_length _ _ _ Hr) as Hlen.
  split; [rewrite Hlen; apply length_map|].
  pose proof (Hcv _ _ _ Hy) as Hylen. specialize (Hclean _ Hy).
  fold (n_valid sig) in Hylen.
  pose proof (edge_width_odd _ (design_fir_filter_length _ _ _ _ _ _ _ Hfw Hd))
    as Hw.
  set (y' := if rea then _drop_edge_artifacts y (length kern) else y) in *.
  assert (length y' = length y) as Hy'
    by (unfold y'; destruct rea; [apply _drop_edge_artifacts_length|done]).
  intros i Hi. destruct (lookup_lt_is_Some_2 sig i Hi) as [x Hx].
  cbn [_remove_nans snd] in Hr.
  assert (length y' = 1%nat -> (n_valid sig <= 1)%nat) as Hone by lia.
  pose proof (_restore_nans_lookup _ _ _ Hr Hone i x Hx) as Hout.
  unfold nan_at at 1 2. rewrite Hout, Hx.
  destruct (isnan x) eqn:Hnan; [by rewrite isnan_nan|]. simpl.
  pose proof (rank_lt_n_valid _ _ _ Hx Hnan) as Hrank.
  assert (length y = n_valid sig) as Hyn.
  { revert Hr. unfold _restore_nans, setitem_mask.
    rewrite count_true_valid. destruct y' as [|v [|v' y'']] eqn:Ey'.
    - simpl in Hy'. lia.
    - simpl in Hy'. lia.
    - case_match eqn:E; [|done]. apply Nat.eqb_eq in E. intros _. lia. }
  destruct (lookup_lt_is_Some_2 y' (rank sig i)) as [v Hv]; [lia|].
  rewrite Hv. simpl.
  assert (isnan v = nan_at y' (rank sig i)) as ->
    by (unfold nan_at; by rewrite Hv).
  assert (nan_at y (rank sig i) = false) as Hfin.
  { unfold nan_at. destruct (y !! rank sig i) as [u|] eqn:Hu; [|done].
    by eapply (proj1 (Forall_lookup _ _) Hclean). }
  unfold y'. destruct rea; simpl; [|done].
  rewrite _drop_edge_artifacts_nan_at by lia. rewrite Hfin, orb_false_r.
  unfold in_stripped_edge, tail_start. rewrite Hyn.
  by destruct (Nat.eqb_spec (edge_width (length kern)) 0); [lia|].
Qed.

(** On a signal without NaN the positions are the ones the claim names: the
    first and last [ceil(kernel_length / 2)] positions of the signal. *)
Corollary clean_signal_nan_at_signal_edges (sig : list F) fs pass_type fc
  n_cycles n_seconds (plot rk ctb rea : bool) kern out k :
  firwin_length ->
  convolve_same_length ->
  Forall (fun x => isnan x = false) sig ->
  design_fir_filter pass_type fc n_cycles n_seconds fs (length sig) = Ok kern ->
  (forall y, convolve_same kern (_remove_nans sig).1 = Ok y ->
             Forall (fun x => isnan x = false) y) ->
  outcome (filter_signal_fir sig fs pass_type fc n_cycles n_seconds
             plot rk ctb rea) = Ok (out, k) ->
  nan_at_signal_edges sig (length kern) rea out.
Proof.
  intros Hfw Hcv Hsig Hd Hclean Hout i Hi.
  destruct (fir_output_nan_positions _ _ _ _ _ _ _ _ _ _ _ _ _
              Hfw Hcv Hd Hclean Hout) as [_ H].
  rewrite (H i Hi). unfold in_stripped_edge, in_signal_edge.
  by rewrite rank_no_nan, n_valid_no_nan by (done || lia).
Qed.

End FirNans.

(** * The claims *)

Section Claims.
Context {F : Type} {Sub : Substrate F}.

(** C1, amended. When the FIR path of [filter_signal] returns and the
    convolution has put no NaN of its own in its result, the output has a NaN
    exactly at the NaN positions of the signal when [remove_edge_artifacts]
    is off, and exactly at those positions and at the positions of the first
    and last [ceil(kernel_length / 2)] non-NaN samples of the signal when it
    is on: the edges are those of the filtered NaN-free signal, put back at
    the places its samples came from. *)
Theorem filter_signal_fir_nan_positions (sig : list F) fs pass_type fc
  n_cycles n_seconds (plot rk ctb rea : bool) kern out k :
  firwin_length ->
  convolve_same_length ->
  design_fir_filter pass_type fc n_cycles n_seconds fs (length sig) = Ok kern ->
  (forall y, convolve_same kern (_remove_nans sig).1 = Ok y ->
             Forall (fun x => isnan x = false) y) ->
  outcome (filter_signal sig fs pass_type fc n_cycles n_seconds false None
             plot rk ctb rea) = Ok (out, k) ->
  length out = length sig
  /\ nan_at_stripped_edges sig (length kern) rea out.
Proof. apply fir_output_nan_positions. Qed.

(** C2. Whenever [filter_signal] returns, FIR or IIR, the filtered signal
    is as long as the input signal. *)
Theorem filter_signal_length (sig : list F) fs pass_type fc n_cycles
  n_seconds (iir : bool) order (plot rk ctb rea : bool) out k :
  outcome (filter_signal sig fs pass_type fc n_cycles n_seconds iir order
             plot rk ctb rea) = Ok (out, k) ->
  length out = length sig.
Proof.
  unfold filter_signal. destruct iir.
  - intros (u & _ & H)%M_bind_outcome_Ok.
    rewrite filter_signal_iir_outcome in H.
    apply result_bind_Ok in H as ([b_vals a_vals] & _ & H).
    apply result_bind_Ok in H as (_ & _ & H).
    apply result_bind_Ok in H as (y & _ & H).
    apply result_bind_Ok in H as (out' & Hr & H).
    apply _restore_nans_length in Hr. simplify_eq.
    rewrite Hr. apply length_map.
  - rewrite filter_signal_fir_outcome. intros H.
    apply result_bind_Ok in H as (kern & _ & H).
    apply result_bind_Ok in H as (_ & _ & H).
    apply result_bind_Ok in H as (y & _ & H).
    apply result_bind_Ok in H as (out' & Hr & H).
    apply _restore_nans_length in Hr. simplify_eq.
    rewrite Hr. apply length_map.
Qed.

(** C3. For a valid FIR request (the definition passes the check, the
    length can be derived and is below the length of the signal) the design
    is the call of [signal.firwin] for [ceil(fs * n_seconds)] taps when a
    duration is given, whatever [n_cycles] is, and for
    [ceil(fs * n_cycles / f_ref)] taps otherwise, where [f_ref] is the lower
    cutoff for bandpass, bandstop and highpass and the higher cutoff for
    lowpass, that number raised to the next odd integer; so the kernel it
    returns has that odd number of coefficients. The product and the
    quotient are those of the program, rounded to the nearest double before
    the ceiling is taken. *)
Theorem design_fir_filter_kernel_length pass_type fc n_cycles n_seconds fs
  sig_length f_lo f_hi (raw : Z) :
  firwin_length ->
  check_filter_definition pass_type fc = Ok (f_lo, f_hi) ->
  match n_seconds with
  | Some secs => int_ceil (float_mul fs secs) = Ok raw
  | None =>
      exists f_ref, reference_frequency pass_type fc = Some f_ref
                    /\ ~ (f_ref == 0)%Q
                    /\ int_ceil (float_div (float_mul fs n_cycles) f_ref)
                       = Ok raw
  end ->
  force_odd raw < Z.of_nat sig_length ->
  exists c pass_zero,
    design_fir_filter pass_type fc n_cycles n_seconds fs sig_length
    = firwin (force_odd raw) c pass_zero (compute_nyquist fs)
    /\ forall kern : list F,
         design_fir_filter pass_type fc n_cycles n_seconds fs sig_length
         = Ok kern ->
         Z.of_nat (length kern) = (if Z.odd raw then raw else raw + 1)
         /\ Z.odd (Z.of_nat (length kern)) = true.
Proof.
  intros Hfw Hc Hraw Hlt.
  assert (Hr : raw_filt_len pass_type f_lo f_hi n_cycles n_seconds fs
               = Ok raw).
  { destruct n_seconds as [secs|]; [done|].
    destruct Hraw as (f_ref & Href & H0 & Hraw).
    pose proof (reference_frequency_checked _ _ _ _ _ Hc Href) as Hf.
    unfold raw_filt_len.
    destruct (String.eqb pass_type "lowpass"); rewrite Hf; unfold ceil_div;
      (destruct (Qeq_bool f_ref 0) eqn:E;
       [by apply Qeq_bool_iff in E | done]). }
  assert (Hchk : _fir_checks pass_type f_lo f_hi n_cycles n_seconds fs
                   sig_length = Ok (force_odd raw)).
  { unfold _fir_checks. rewrite Hr. simpl.
    destruct (Z.geb_spec (force_odd raw) (Z.of_nat sig_length)); [lia|done]. }
  assert (exists c pass_zero,
            design_fir_filter pass_type fc n_cycles n_seconds fs sig_length
            = firwin (force_odd raw) c pass_zero (compute_nyquist fs))
    as (c & pz & Hd).
  { unfold design_fir_filter. rewrite Hc. simpl. rewrite Hchk. simpl.
    destruct (check_filter_definition_pass_type _ _ _ Hc)
      as [-> | [-> | [-> | ->]]]; simpl; eauto. }
  exists c, pz. split; [done|]. intros kern Hk. rewrite Hd in Hk.
  apply Hfw in Hk. rewrite Hk. split; [apply force_odd_alt|].
  apply force_odd_odd.
Qed.

(** C4. [_fir_checks] raises [FilterTooLong] exactly when the filter length,
    once forced odd, is at least the length of the signal. In that case
    neither a kernel nor a filtered signal is returned: the design and the
    filtering raise the same error and emit nothing. Otherwise the checks
    return the length and the design goes on to build the kernel. *)
Theorem fir_filter_too_long (sig : list F) pass_type fc n_cycles n_seconds fs
  f_lo f_hi raw (plot rk ctb rea : bool) :
  check_filter_definition pass_type fc = Ok (f_lo, f_hi) ->
  raw_filt_len pass_type f_lo f_hi n_cycles n_seconds fs = Ok raw ->
  (_fir_checks pass_type f_lo f_hi n_cycles n_seconds fs (length sig)
     = Raise FilterTooLong
   <-> Z.of_nat (length sig) <= force_odd raw)
  /\ (Z.of_nat (length sig) <= force_odd raw ->
        design_fir_filter pass_type fc n_cycles n_seconds fs (length sig)
          = Raise FilterTooLong
        /\ filter_signal_fir sig fs pass_type fc n_cycles n_seconds
             plot rk ctb rea = mkM [] (Raise FilterTooLong))
  /\ (force_odd raw < Z.of_nat (length sig) ->
        _fir_checks pass_type f_lo f_hi n_cycles n_seconds fs (length sig)
          = Ok (force_odd raw)
        /\ exists c pass_zero,
             design_fir_filter pass_type fc n_cycles n_seconds fs (length sig)
             = firwin (force_odd raw) c pass_zero (compute_nyquist fs)).
Proof.
  intros Hc Hraw.
  assert (Hchk : _fir_checks pass_type f_lo f_hi n_cycles n_seconds fs
                   (length sig)
                 = if force_odd raw >=? Z.of_nat (length sig)
                   then Raise FilterTooLong else Ok (force_odd raw)).
  { unfold _fir_checks. by rewrite Hraw. }
  rewrite Hchk. destruct (Z.geb_spec (force_odd raw) (Z.of_nat (length sig)))
    as [Hge|Hlt].
  - split; [split; [lia|done]|]. split; [|lia]. intros _.
    assert (Hd : design_fir_filter pass_type fc n_cycles n_seconds fs
                   (length sig) = Raise FilterTooLong (A := list F)).
    { unfold design_fir_filter. rewrite Hc. simpl. by rewrite Hchk. }
    split; [done|]. unfold filter_signal_fir. by rewrite Hd.
  - split; [split; [done|lia]|]. split; [lia|]. intros _. split; [done|].
    unfold design_fir_filter. rewrite Hc. simpl.
    rewrite Hchk. simpl.
    destruct (check_filter_definition_pass_type _ _ _ Hc)
      as [-> | [-> | [-> | ->]]]; simpl; eauto.
Qed.

(** C5, amended. A lowpass request whose cutoff is at or above the Nyquist
    frequency [fs / 2] is rejected with a [ValueError], the class of
    [InvalidFilterDefinition], and returns neither a kernel nor a filtered
    signal; but no check of the code compares the cutoff with [fs / 2].
    [check_filter_definition] returns the cutoff, and when the length fits
    the signal the design is the call of [signal.firwin] with that cutoff and
    [nyq = fs / 2]: the error is the one that the kernel constructor raises
    for such a cutoff (the too-long error otherwise). On the IIR path the
    cutoff reaches [signal.butter] as a fraction of the Nyquist frequency
    that is at least one, and the error is the one of [signal.butter]. *)
Theorem lowpass_cutoff_rejected_by_kernel_design (sig : list F) fc
  (f fs n_cycles : Q) n_seconds (raw : Z) butterworth_order (order : Z)
  (plot rk ctb rea : bool) :
  firwin_rejects_nyquist -> butter_rejects_nyquist ->
  (0 < fs)%Q -> (compute_nyquist fs <= f)%Q ->
  higher_cutoff fc = Some f ->
  raw_filt_len "lowpass" PyNone (PyNum f) n_cycles n_seconds fs = Ok raw ->
  check_filter_definition "lowpass" fc = Ok (PyNone, PyNum f)
  /\ (exists e,
        InvalidFilterDefinition e
        /\ design_fir_filter "lowpass" fc n_cycles n_seconds fs (length sig)
           = Raise e
        /\ filter_signal sig fs "lowpass" fc n_cycles n_seconds false
             butterworth_order plot rk ctb rea = mkM [] (Raise e))
  /\ (force_odd raw < Z.of_nat (length sig) ->
        design_fir_filter "lowpass" fc n_cycles n_seconds fs (length sig)
        = firwin (force_odd raw) (Edge (PyNum f)) true (compute_nyquist fs))
  /\ (exists msg,
        (1 <= f / compute_nyquist fs)%Q
        /\ butter (Some order) (Edge (PyNum (f / compute_nyquist fs)))
             "lowpass" = Raise (ValueError msg)
        /\ outcome (design_iir_filter "lowpass" fc (Some order) fs)
           = Raise (ValueError msg)
        /\ outcome (filter_signal_iir sig fs "lowpass" fc (Some order)
                      plot rk ctb) = Raise (ValueError msg)).
Proof.
  intros Hfw Hbt Hfs Hny Hhi Hraw.
  assert (Hnyq : (0 < compute_nyquist fs)%Q).
  { unfold compute_nyquist. by apply Qlt_shift_div_l; [|rewrite Qmult_0_l]. }
  assert (Hc : check_filter_definition "lowpass" fc = Ok (PyNone, PyNum f)).
  { unfold check_filter_definition. simpl.
    destruct fc as [q|[|x [|[|y] t]]|t]; simpl in *; by simplify_eq. }
  assert (Hchk : _fir_checks "lowpass" PyNone (PyNum f) n_cycles n_seconds fs
                   (length sig)
                 = if force_odd raw >=? Z.of_nat (length sig)
                   then Raise FilterTooLong else Ok (force_odd raw)).
  { unfold _fir_checks. by rewrite Hraw. }
  assert (Hd : design_fir_filter "lowpass" fc n_cycles n_seconds fs
                 (length sig)
               = if force_odd raw >=? Z.of_nat (length sig)
                 then Raise FilterTooLong
                 else firwin (force_odd raw) (Edge (PyNum f)) true
                        (compute_nyquist fs)).
  { unfold design_fir_filter. rewrite Hc. simpl. rewrite Hchk.
    by destruct (force_odd raw >=? Z.of_nat (length sig)). }
  split; [done|]. split; [|split].
  - destruct (Hfw (force_odd raw) f true _ Hnyq Hny) as [msg Hmsg].
    exists (if force_odd raw >=? Z.of_nat (length sig)
            then FilterTooLong else ValueError msg).
    assert (design_fir_filter "lowpass" fc n_cycles n_seconds fs (length sig)
            = Raise (if force_odd raw >=? Z.of_nat (length sig)
                     then FilterTooLong else ValueError msg)) as Hd'.
    { rewrite Hd, Hmsg. by destruct (force_odd raw >=? Z.of_nat (length sig)). }
    split; [|split; [done|]].
    + destruct (force_odd raw >=? Z.of_nat (length sig)); by eexists.
    + unfold filter_signal, filter_signal_fir. by rewrite Hd'.
  - intros Hlt. rewrite Hd.
    destruct (Z.geb_spec (force_odd raw) (Z.of_nat (length sig))); [lia|done].
  - assert (Hwn : (1 <= f / compute_nyquist fs)%Q).
    { apply Qle_shift_div_l; [done|]. by rewrite Qmult_1_l. }
    destruct (Hbt order _ "lowpass" Hwn) as [msg Hmsg].
    assert (Hi : outcome (design_iir_filter "lowpass" fc (Some order) fs)
                 = Raise (ValueError msg)).
    { unfold design_iir_filter. rewrite !outcome_bind. simpl.
      rewrite Hc. simpl.
      destruct (Qeq_bool (compute_nyquist fs) 0) eqn:E.
      - apply Qeq_bool_iff in E. rewrite E in Hnyq. by apply Qlt_irrefl in Hnyq.
      - simpl. by rewrite Hmsg. }
    exists msg. split; [done|]. split; [done|]. split; [done|].
    by rewrite filter_signal_iir_outcome, Hi.
Qed.

(** C6, at the failing input. A band filter given a tuple with a single
    cutoff does not get the error of the cutoff validation: the ordering
    test reads the second item first and raises [IndexError]. *)
Theorem check_filter_definition_single_item :
  check_filter_definition "bandpass" (FcTuple [PyNum 8])
  = Raise (IndexError "tuple index out of range")
  /\ ~ InvalidFilterDefinition (IndexError "tuple index out of range")
  /\ filter_signal Exact.sig8 1000 "bandpass" (FcTuple [PyNum 8]) 3 None
       false None false false true true
     = mkM [] (Raise (IndexError "tuple index out of range")).
Proof.
  split; [reflexivity|]. split; [by intros [msg H] | reflexivity].
Qed.

(** C7, amended. On the IIR path of [filter_signal]: a duration
    [n_seconds] raises [IncompatibleOption]; a missing Butterworth order
    raises [MissingOrder] when no duration is given; asking for edge removal
    only adds an advisory in front of what the call does without it; and when
    the two checks pass and [pass_type] is not bandstop, the advisory that IIR
    is recommended for notch filters only is emitted. *)
Theorem iir_checks_spec (sig : list F) fs pass_type fc n_cycles n_seconds
  order (plot rk ctb : bool) :
  let run := fun rea =>
    filter_signal sig fs pass_type fc n_cycles n_seconds true order
      plot rk ctb rea in
  (forall rea secs, n_seconds = Some secs ->
     outcome (run rea) = Raise IncompatibleOption)
  /\ (forall rea, n_seconds = None -> order = None ->
       outcome (run rea) = Raise MissingOrder)
  /\ run true
     = mkM (Warn msg_iir_edge [] :: events (run false)) (outcome (run false))
  /\ (forall rea n, n_seconds = None -> order = Some n ->
       pass_type <> "bandstop" ->
       In (Warn msg_iir_notch []) (events (run rea))).
Proof.
  intros run. unfold run, filter_signal. split; [|split; [|split]].
  - intros rea secs ->. by rewrite _iir_checks_run.
  - intros rea -> ->. by rewrite _iir_checks_run.
  - rewrite !_iir_checks_run. unfold mbind, M_bind. simpl.
    destruct n_seconds as [secs|]; [done|]. by destruct order.
  - intros rea n -> -> Hp. rewrite _iir_checks_run, events_bind. simpl.
    apply in_or_app. right. unfold filter_signal_iir. rewrite events_bind.
    apply in_or_app. left.
    destruct (design_iir_filter_events pass_type fc (Some n) fs) as [rest ->].
    + by apply String.eqb_neq.
    + by left.
Qed.

(** C8, at the failing input. When the sampled frequency response of the
    kernel has a stopband and no grid frequency between the two transition
    thresholds, a call that returns with [compute_transition_band] off raises
    with it on: the advisory check blocks the computation. The exception is
    the one of the reduction over no crossing whenever the pass band itself
    can be computed. *)
Theorem transition_check_blocks_filter (sig : list F) fs pass_type fc n_cycles
  n_seconds order (plot rk rea : bool) kern f_db db d out k :
  design_fir_filter pass_type fc n_cycles n_seconds fs (length sig) = Ok kern ->
  compute_frequency_response kern DenomOne fs = Ok (f_db, db) ->
  d ∈ db -> (d < -20)%Q ->
  Forall (fun d => (d <= -20)%Q \/ (-3 <= d)%Q) db ->
  outcome (filter_signal sig fs pass_type fc n_cycles n_seconds false order
             plot rk false rea) = Ok (out, k) ->
  exists e,
    outcome (filter_signal sig fs pass_type fc n_cycles n_seconds false order
               plot rk true rea) = Raise e
    /\ (forall bw, compute_pass_band pass_type fc fs = Ok bw ->
                   e = ValueError msg_zero_size).
Proof.
  intros Hd Hr Hin Hlt Hall _.
  destruct (design_fir_filter_Ok _ _ _ _ _ _ _ Hd)
    as (f_lo & f_hi & _ & _ & _ & Hc & _).
  destruct (check_filter_properties_no_crossing kern DenomOne fs pass_type fc
              f_lo f_hi f_db db d Hc Hr Hin Hlt Hall) as (e & He & Hbw).
  exists e. split; [|done].
  unfold filter_signal. rewrite filter_signal_fir_outcome, Hd. simpl.
  by rewrite He.
Qed.


(** C10. Restoring the NaN after stripping them is a lossless round trip:
    [_restore_nans] applied to the two results of [_remove_nans] returns a
    signal of the same length that carries [np.nan] exactly where the signal
    had a NaN and the sample of the signal everywhere else. *)
Theorem restore_remove_nans_roundtrip (sig : list F) :
  exists out,
    _restore_nans (_remove_nans sig).1 (_remove_nans sig).2 = Ok out
    /\ out = map canonical sig
    /\ length out = length sig
    /\ map isnan out = map isnan sig
    /\ (forall i x, sig !! i = Some x -> isnan x = false -> out !! i = Some x)
    /\ (forall i x, sig !! i = Some x -> isnan x = true -> out !! i = Some nan).
Proof.
  exists (map canonical sig). split.
  - unfold _restore_nans. cbn [_remove_nans fst snd].
    rewrite setitem_mask_exact.
    + rewrite length_map. f_equal. apply remove_nans_roundtrip.
    + by rewrite count_true_valid.
  - split; [done|]. split; [by rewrite length_map|]. split.
    + rewrite map_map. apply map_ext. intros x. apply isnan_canonical.
    + split; intros i x Hi Hx; rewrite list_lookup_fmap, Hi; simpl;
        unfold canonical; by rewrite Hx.
Qed.

End Claims.

(** ** The claims on concrete inputs *)

(** C1 as stated fails when the signal has a NaN: the edge samples are
    counted on the NaN-free signal, so with a NaN in front the third position
    is blanked and, had the claim held, would not be. *)
Lemma filter_signal_nan_at_signal_edges_counterexample :
  exists out kern,
    outcome (filter_signal Exact.sig8 1000 "lowpass" (FcNum 400) 1 None
               false None false true false true)
    = Ok (out, Some (FirKernel kern))
    /\ map isnan out = [true; true; true; false; false; false; true; true]
    /\ map (fun i => nan_at Exact.sig8 i
                     || in_signal_edge Exact.sig8 (edge_width (length kern)) i)
           (seq 0 8)
       = [true; true; false; false; false; false; true; true]
    /\ ~ nan_at_signal_edges Exact.sig8 (length kern) true out.
Proof.
  eexists _, _. split; [vm_compute; reflexivity|].
  split; [vm_compute; reflexivity|]. split; [vm_compute; reflexivity|].
  intros H. specialize (H 2%nat). vm_compute in H.
  assert (2 < 8)%nat as H2 by lia. specialize (H H2). discriminate H.
Qed.

Lemma filter_signal_fir_nan_positions_witness :
  exists out kern,
    outcome (filter_signal Exact.sig8 1000 "lowpass" (FcNum 400) 1 None
               false None false true false true)
    = Ok (out, Some (FirKernel kern))
    /\ length out = length Exact.sig8
    /\ nan_at_stripped_edges Exact.sig8 (length kern) true out.
Proof.
  eexists _, _. split; [vm_compute; reflexivity|].
  apply (filter_signal_fir_nan_positions Exact.sig8 1000 "lowpass" (FcNum 400)
           1 None false true false true
           (replicate 3 (Exact.Num (1 # 3))) _
           (Some (FirKernel (replicate 3 (Exact.Num (1 # 3)))))
           ExactFacts.fir_design_length ExactFacts.convolve_length).
  - vm_compute. reflexivity.
  - intros y Hy. vm_compute in Hy. injection Hy as <-.
    repeat constructor.
  - vm_compute. reflexivity.
Defined.

Lemma filter_signal_length_witness :
  exists out k,
    outcome (filter_signal Exact.sig8 1000 "lowpass" (FcNum 400) 1 None
               false None false true true true) = Ok (out, k)
    /\ length out = 8%nat.
Proof.
  eexists _, _. split; [vm_compute; reflexivity|].
  eapply (filter_signal_length Exact.sig8 1000 "lowpass" (FcNum 400) 1 None
            false None false true true true).
  lazy. reflexivity.
Defined.

(** At a sampling rate of 100 Hz a duration of 0.07 s gives 9 taps: the
    double product is just above 7. At 250 Hz, 0.7 cycles of a lowpass
    cutoff of 1.4 Hz give 127 taps: the double quotient is just above 125. *)
Lemma design_fir_filter_kernel_length_witness :
  (exists kern : list Exact.sample,
     design_fir_filter "lowpass" (FcNum 20) 3 (Some (double (7 # 100))) 100
       5000%nat = Ok kern
     /\ Z.of_nat (length kern) = 9)
  /\ (exists kern : list Exact.sample,
        design_fir_filter "lowpass" (FcNum (double (14 # 10)))
          (double (7 # 10)) None 250 5000%nat = Ok kern
        /\ Z.of_nat (length kern) = 127)
  /\ (exists kern : list Exact.sample,
        design_fir_filter "bandpass" (FcTuple [PyNum 8; PyNum 12]) 3 None
          1000 5000%nat = Ok kern
        /\ Z.of_nat (length kern) = 375).
Proof.
  split; [|split].
  - destruct (design_fir_filter_kernel_length (Sub := Exact.substrate)
                "lowpass" (FcNum 20) 3 (Some (double (7 # 100))) 100 5000%nat
                PyNone (PyNum 20) 8 ExactFacts.fir_design_length)
      as (c & pz & _ & Hk); [vm_compute; reflexivity ..|].
    exists (replicate 9 (Exact.Num (1 # 9))).
    assert (design_fir_filter "lowpass" (FcNum 20) 3
              (Some (double (7 # 100))) 100 5000%nat
            = Ok (replicate 9 (Exact.Num (1 # 9)))) as Hd
      by (vm_compute; reflexivity).
    split; [exact Hd | exact (proj1 (Hk _ Hd))].
  - destruct (design_fir_filter_kernel_length (Sub := Exact.substrate)
                "lowpass" (FcNum (double (14 # 10))) (double (7 # 10)) None
                250 5000%nat PyNone (PyNum (double (14 # 10))) 126
                ExactFacts.fir_design_length)
      as (c & pz & _ & Hk);
      [vm_compute; reflexivity
      |exists (double (14 # 10));
       split; [reflexivity|split; [vm_compute; discriminate
                                  |vm_compute; reflexivity]]
      |vm_compute; reflexivity|].
    exists (replicate 127 (Exact.Num (1 # 127))).
    assert (design_fir_filter "lowpass" (FcNum (double (14 # 10)))
              (double (7 # 10)) None 250 5000%nat
            = Ok (replicate 127 (Exact.Num (1 # 127)))) as Hd
      by (vm_compute; reflexivity).
    split; [exact Hd | exact (proj1 (Hk _ Hd))].
  - destruct (design_fir_filter_kernel_length (Sub := Exact.substrate)
                "bandpass" (FcTuple [PyNum 8; PyNum 12]) 3 None 1000 5000%nat
                (PyNum 8) (PyNum 12) 375 ExactFacts.fir_design_length)
      as (c & pz & _ & Hk);
      [vm_compute; reflexivity
      |exists 8%Q;
       split; [reflexivity|split; [vm_compute; discriminate
                                  |vm_compute; reflexivity]]
      |vm_compute; reflexivity|].
    exists (replicate 375 (Exact.Num (1 # 375))).
    assert (design_fir_filter "bandpass" (FcTuple [PyNum 8; PyNum 12]) 3 None
              1000 5000%nat
            = Ok (replicate 375 (Exact.Num (1 # 375)))) as Hd
      by (vm_compute; reflexivity).
    split; [exact Hd | exact (proj1 (Hk _ Hd))].
Defined.

Lemma fir_filter_too_long_witness :
  _fir_checks "bandpass" (PyNum 8) (PyNum 12) 3 None 1000
    (length Exact.sig8) = Raise FilterTooLong
  /\ filter_signal_fir Exact.sig8 1000 "bandpass"
       (FcTuple [PyNum 8; PyNum 12]) 3 None false false true true
     = mkM [] (Raise FilterTooLong)
  /\ _fir_checks "bandpass" (PyNum 8) (PyNum 12) 3 None 1000
       (length (replicate 400 (Exact.Num 1))) = Ok 375.
Proof.
  destruct (fir_filter_too_long Exact.sig8 "bandpass"
              (FcTuple [PyNum 8; PyNum 12]) 3 None 1000 (PyNum 8) (PyNum 12)
              375 false false true true eq_refl eq_refl)
    as (Hiff & Hlong & _).
  destruct (fir_filter_too_long (replicate 400 (Exact.Num 1)) "bandpass"
              (FcTuple [PyNum 8; PyNum 12]) 3 None 1000 (PyNum 8) (PyNum 12)
              375 false false true true eq_refl eq_refl)
    as (_ & _ & Hshort).
  split; [|split].
  - apply Hiff. vm_compute. discriminate.
  - apply Hlong. vm_compute. discriminate.
  - apply Hshort. vm_compute. reflexivity.
Defined.

(** C5 as stated fails: a lowpass cutoff of 600 Hz at a sampling rate of
    1000 Hz passes every check that precedes the construction of the kernel,
    and the design is the call of [signal.firwin] with that cutoff, whatever
    the substrate; the [ValueError] of the call is the one that
    [signal.firwin] raises. *)
Lemma lowpass_above_nyquist_counterexample :
  (compute_nyquist 1000 <= 600)%Q
  /\ check_filter_definition "lowpass" (FcNum 600) = Ok (PyNone, PyNum 600)
  /\ _fir_checks "lowpass" PyNone (PyNum 600) 3 None 1000 100 = Ok 5
  /\ (forall (F : Type) (Sub : Substrate F),
        design_fir_filter "lowpass" (FcNum 600) 3 None 1000 100
        = firwin 5 (Edge (PyNum 600)) true (compute_nyquist 1000))
  /\ design_fir_filter (Sub := Exact.substrate) "lowpass" (FcNum 600) 3 None
       1000 100
     = Raise (ValueError
         "Invalid cutoff frequency: frequencies must be greater than 0 and less than nyq.")
  /\ filter_signal (replicate 100 (Exact.Num 1)) 1000 "lowpass" (FcNum 600)
       3 None false None false false true true
     = mkM [] (Raise (ValueError
         "Invalid cutoff frequency: frequencies must be greater than 0 and less than nyq.")).
Proof.
  split; [vm_compute; discriminate|]. split; [reflexivity|].
  split; [vm_compute; reflexivity|]. split; [|split].
  - intros F Sub. unfold design_fir_filter.
    change (check_filter_definition "lowpass" (FcNum 600))
      with (Ok (PyNone, PyNum 600)).
    assert (_fir_checks "lowpass" PyNone (PyNum 600) 3 None 1000 100 = Ok 5)
      as H by (vm_compute; reflexivity).
    unfold mbind at 1, result_bind at 1. cbv beta iota. rewrite H.
    reflexivity.
  - vm_compute. reflexivity.
  - vm_compute. reflexivity.
Qed.

Lemma lowpass_cutoff_rejected_by_kernel_design_witness :
  (compute_nyquist 1000 <= 600)%Q
  /\ (exists e,
        InvalidFilterDefinition e
        /\ design_fir_filter (Sub := Exact.substrate) "lowpass" (FcNum 600) 3
             None 1000 (length (replicate 100 (Exact.Num 1))) = Raise e
        /\ filter_signal (replicate 100 (Exact.Num 1)) 1000 "lowpass"
             (FcNum 600) 3 None false None false false true true
           = mkM [] (Raise e))
  /\ (exists msg,
        outcome (design_iir_filter (Sub := Exact.substrate) "lowpass"
                   (FcNum 600) (Some 2) 1000) = Raise (ValueError msg)).
Proof.
  assert (compute_nyquist 1000 <= 600)%Q as Hny by (vm_compute; discriminate).
  destruct (lowpass_cutoff_rejected_by_kernel_design
              (Sub := Exact.substrate) (replicate 100 (Exact.Num 1))
              (FcNum 600) 600 1000 3 None 5 None 2 false false true true
              ExactFacts.fir_design_rejects_nyquist
              ExactFacts.iir_design_rejects_nyquist)
    as (_ & Hfir & _ & (msg & _ & _ & Hiir & _));
    [vm_compute; reflexivity | exact Hny | reflexivity
    | vm_compute; reflexivity |].
  split; [exact Hny|]. split; [exact Hfir|]. by exists msg.
Defined.

(** C7 as stated fails where the two checks meet: with a duration given and
    the order omitted the error is [IncompatibleOption], not [MissingOrder],
    and the call raises before the advisory on notch filters is emitted. *)
Lemma iir_checks_counterexample :
  let run :=
    filter_signal Exact.sig8 1000 "lowpass" (FcNum 40) 3 (Some 1%Q) true None
      false false true true in
  outcome run = Raise IncompatibleOption
  /\ outcome run <> Raise MissingOrder
  /\ events run = [Warn msg_iir_edge []]
  /\ ~ In (Warn msg_iir_notch []) (events run).
Proof.
  split; [reflexivity|]. split; [discriminate|]. split; [reflexivity|].
  intros [H | []]. discriminate H.
Qed.

Lemma iir_checks_spec_witness :
  outcome (filter_signal Exact.sig8 1000 "lowpass" (FcNum 40) 3 (Some 1%Q)
             true (Some 2) false false true true) = Raise IncompatibleOption
  /\ outcome (filter_signal Exact.sig8 1000 "lowpass" (FcNum 40) 3 None
                true None false false true true) = Raise MissingOrder
  /\ In (Warn msg_iir_notch [])
        (events (filter_signal Exact.sig8 1000 "lowpass" (FcNum 40) 3 None
                   true (Some 2) false false true true)).
Proof.
  split; [|split].
  - apply (iir_checks_spec Exact.sig8 1000 "lowpass" (FcNum 40) 3 (Some 1%Q)
             (Some 2) false false true) with (secs := 1%Q). reflexivity.
  - apply (iir_checks_spec Exact.sig8 1000 "lowpass" (FcNum 40) 3 None
             None false false true); reflexivity.
  - apply (iir_checks_spec Exact.sig8 1000 "lowpass" (FcNum 40) 3 None
             (Some 2) false false true) with (n := 2); [reflexivity..|].
    discriminate.
Defined.

Lemma transition_check_blocks_filter_witness :
  exists out k,
    outcome (filter_signal (Sub := Exact.sharp_substrate) Exact.sig8 1000
               "lowpass" (FcNum 400) 1 None false None false false false true)
    = Ok (out, k)
    /\ outcome (filter_signal (Sub := Exact.sharp_substrate) Exact.sig8 1000
                  "lowpass" (FcNum 400) 1 None false None false false true
                  true)
       = Raise (ValueError msg_zero_size).
Proof.
  eexists _, _. split; [vm_compute; reflexivity|].
  edestruct (transition_check_blocks_filter (Sub := Exact.sharp_substrate)
               Exact.sig8 1000 "lowpass" (FcNum 400) 1 None None false false
               true (replicate 3 (Exact.Num (1 # 3)))
               (map (fun k => (inject_Z k * 1000 / 10)%Q) [0; 1; 2; 3; 4])
               [0; 0; 0; -60; -60]%Q (-60)%Q) as (e & He & Hbw).
  - vm_compute. reflexivity.
  - reflexivity.
  - apply list_elem_of_In. simpl. tauto.
  - reflexivity.
  - repeat (apply List.Forall_cons;
            [first [left; discriminate | right; discriminate]|]).
    apply List.Forall_nil.
  - vm_compute. reflexivity.
  - rewrite He. f_equal. apply (Hbw (PyNum 400)). reflexivity.
Defined.


Lemma restore_remove_nans_roundtrip_witness :
  exists out,
    _restore_nans (_remove_nans Exact.sig8).1 (_remove_nans Exact.sig8).2
    = Ok out
    /\ out !! 0%nat = Some Exact.NaN /\ out !! 3%nat = Some (Exact.Num 3).
Proof.
  destruct (restore_remove_nans_roundtrip Exact.sig8)
    as (out & H & _ & _ & _ & Hval & Hnan).
  exists out. split; [exact H|]. split.
  - apply (Hnan 0%nat Exact.NaN); reflexivity.
  - apply (Hval 3%nat (Exact.Num 3)); reflexivity.
Defined.

(** * Further properties of the filtering functions *)

(** ** The transition band *)

Lemma np_diff_length (mask : list bool) :
  length (np_diff mask) = (length mask - 1)%nat.
Proof.
  induction mask as [|a [|b mask] IH]; [done..|].
  change (np_diff (a :: b :: mask)) with (xorb b a :: np_diff (b :: mask)).
  rewrite length_cons, IH. simpl. lia.
Qed.

Lemma np_where_from_bounds (i : nat) (mask : list bool) :
  Forall (fun k => (i <= k < i + length mask)%nat) (np_where_from i mask).
Proof.
  revert i. induction mask as [|b mask IH]; intros i; simpl; [constructor|].
  assert (Forall (fun k => (i <= k < i + S (length mask))%nat)
            (np_where_from (S i) mask))
    by (eapply Forall_impl; [apply IH|]; simpl; intros; lia).
  destruct b; [constructor; [lia|done] | done].
Qed.

Lemma band_crossings_bound (db : list Q) (low high : Q) :
  Forall (fun k => (k < length db)%nat) (band_crossings db low high).
Proof.
  unfold band_crossings, np_where.
  eapply Forall_impl; [apply np_where_from_bounds|]. simpl. intros k.
  rewrite np_diff_length, length_map. lia.
Qed.

Lemma evens_Forall {A} (P : A -> Prop) (l : list A) :
  Forall P l -> Forall P (evens l) /\ Forall P (odds l).
Proof.
  induction l as [l IH] using (induction_ltof1 _ (@length A)).
  unfold ltof in IH. intros H. destruct H as [|x l Hx H]; [by split|].
  destruct H as [|z l Hz H]; [split; [by constructor | constructor]|].
  destruct (IH l) as [He Ho]; [simpl; lia | done |].
  split; simpl.
  - by constructor.
  - constructor; [done|]. destruct l; [constructor|]. apply Ho.
Qed.


Lemma pairs_ind {A} (P : list A -> Prop) :
  P [] -> (forall x, P [x]) -> (forall x z l, P l -> P (x :: z :: l)) ->
  forall l, P l.
Proof.
  intros H0 H1 H2 l. induction l as [l IH] using (induction_ltof1 _ (@length A)).
  unfold ltof in IH. destruct l as [|x [|z l]]; [done..|].
  apply H2, IH. simpl. lia.
Qed.

Lemma evens_cons2 {A} (x z : A) (l : list A) :
  evens (x :: z :: l) = x :: evens l.
Proof. done. Qed.

Lemma odds_cons2 {A} (x z : A) (l : list A) :
  odds (x :: z :: l) = z :: odds l.
Proof. by destruct l. Qed.

Lemma take_inds_Ok (arr : list Q) (inds : list nat) :
  Forall (fun k => (k < length arr)%nat) inds ->
  exists xs, take_inds arr inds = Ok xs
             /\ Forall2 (fun k x => arr !! k = Some x) inds xs.
Proof.
  induction 1 as [|k inds Hk _ (xs & IH & Hxs)]; simpl.
  - exists []. by split; [|constructor].
  - destruct (lookup_lt_is_Some_2 arr k Hk) as [x Hx]. rewrite Hx, IH. simpl.
    exists (x :: xs). split; [done|]. by constructor.
Qed.

Lemma fold_max_in (acc : Q) (xs : list Q) :
  foldl (fun m y => if Qlt_bool m y then y else m) acc xs ∈ acc :: xs.
Proof.
  revert acc. induction xs as [|y xs IH]; intros acc; simpl.
  - apply list_elem_of_here.
  - specialize (IH (if Qlt_bool acc y then y else acc)).
    apply elem_of_cons in IH as [-> | IH].
    + destruct (Qlt_bool acc y); [apply list_elem_of_further|];
        apply list_elem_of_here.
    + by do 2 apply list_elem_of_further.
Qed.

Lemma np_max_in (l : list Q) (m : Q) : np_max l = Ok m -> m ∈ l.
Proof. destruct l as [|x xs]; [done|]. intros [= <-]. apply fold_max_in. Qed.

Lemma fold_min_in (acc : Q) (xs : list Q) :
  foldl (fun m y => if Qlt_bool y m then y else m) acc xs ∈ acc :: xs.
Proof.
  revert acc. induction xs as [|y xs IH]; intros acc; simpl.
  - apply list_elem_of_here.
  - specialize (IH (if Qlt_bool y acc then y else acc)).
    apply elem_of_cons in IH as [-> | IH].
    + destruct (Qlt_bool y acc); [apply list_elem_of_further|];
        apply list_elem_of_here.
    + by do 2 apply list_elem_of_further.
Qed.

Lemma np_min_in (l : list Q) (m : Q) : np_min l = Ok m -> m ∈ l.
Proof. destruct l as [|x xs]; [done|]. intros [= <-]. apply fold_min_in. Qed.

Lemma np_where_from_sorted (i : nat) (mask : list bool) :
  StronglySorted lt (np_where_from i mask).
Proof.
  revert i. induction mask as [|b mask IH]; intros i; simpl; [constructor|].
  destruct b; [|done]. constructor; [done|].
  eapply Forall_impl; [apply (np_where_from_bounds (S i) mask)|].
  simpl. intros; lia.
Qed.

Lemma sorted_ascending (l : list Q) :
  StronglySorted Qle l ->
  forall i j a b, (i <= j)%nat -> l !! i = Some a -> l !! j = Some b ->
                  (a <= b)%Q.
Proof.
  induction 1 as [|x l _ IH Hx]; intros i j a b Hij Hi Hj; [done|].
  destruct i as [|i], j as [|j]; simpl in *; simplify_eq.
  - apply Qle_refl.
  - apply (proj1 (Forall_lookup _ _) Hx j b Hj).
  - lia.
  - eapply IH; [|done..]. lia.
Qed.

(** X1. [compute_transition_band] needs two crossings of the band between
    the two thresholds: with fewer it raises the error of a maximum over
    nothing, with two or more it returns. *)
Theorem compute_transition_band_needs_two_crossings (f_db db : list Q)
  (low high : Q) :
  (length db <= length f_db)%nat ->
  ((length (band_crossings db low high) < 2)%nat ->
   compute_transition_band f_db db low high = Raise (ValueError msg_zero_size))
  /\ ((2 <= length (band_crossings db low high))%nat ->
      exists bw, compute_transition_band f_db db low high = Ok bw).
Proof.
  intros Hlen. unfold compute_transition_band.
  fold (band_crossings db low high).
  assert (Forall (fun k => (k < length f_db)%nat) (band_crossings db low high))
    as Hb.
  { eapply Forall_impl; [apply band_crossings_bound|]. simpl; intros; lia. }
  destruct (evens_Forall _ _ Hb) as [He Ho].
  destruct (take_inds_Ok _ _ He) as (lows & -> & Hl).
  destruct (take_inds_Ok _ _ Ho) as (highs & -> & Hh). simpl.
  destruct (band_crossings db low high) as [|i [|j inds]]; split;
    simpl; try lia; intros _.
  - by inversion Hl.
  - by inversion Hh; destruct lows.
  - rewrite evens_cons2 in Hl. rewrite odds_cons2 in Hh.
    inversion Hl; inversion Hh; subst. simpl. by eexists.
Qed.

(** X2. On a frequency grid in ascending order the transition bandwidth
    that [compute_transition_band] returns is not negative. *)
Theorem compute_transition_band_nonneg (f_db db : list Q) (low high bw : Q) :
  (forall i j a b, (i <= j)%nat -> f_db !! i = Some a -> f_db !! j = Some b ->
                   (a <= b)%Q) ->
  compute_transition_band f_db db low high = Ok bw ->
  (0 <= bw)%Q.
Proof.
  intros Hasc. unfold compute_transition_band.
  fold (band_crossings db low high).
  assert (StronglySorted lt (band_crossings db low high)) as Hs
    by apply np_where_from_sorted.
  intros H. apply result_bind_Ok in H as (lows & Hl & H).
  apply result_bind_Ok in H as (highs & Hh & H). apply np_max_in in H.
  revert Hs lows highs Hl Hh H.
  induction (band_crossings db low high) as [|i|i j inds IH] using pairs_ind;
    intros Hs lows highs Hl Hh Hin.
  - simpl in *. simplify_eq. by apply elem_of_nil in Hin.
  - simpl in *. simplify_eq. destruct lows; by apply elem_of_nil in Hin.
  - rewrite evens_cons2 in Hl. rewrite odds_cons2 in Hh. simpl in Hl, Hh.
    destruct (f_db !! i) as [a|] eqn:Ha; [|done].
    destruct (f_db !! j) as [b|] eqn:Hb; [|done].
    apply result_bind_Ok in Hl as (lows' & Hl & [= <-]).
    apply result_bind_Ok in Hh as (highs' & Hh & [= <-]).
    simpl in Hin. apply elem_of_cons in Hin as [-> | Hin].
    + apply StronglySorted_inv in Hs as [_ Hij].
      apply Forall_cons in Hij as [Hij _].
      assert (a <= b)%Q by (eapply (Hasc i j); [lia|done..]).
      by apply (proj1 (Qle_minus_iff a b)).
    + apply (IH) with (lows := lows') (highs := highs'); [|done..].
      apply StronglySorted_inv in Hs as [Hs _].
      by apply StronglySorted_inv in Hs as [Hs _].
Qed.

Section Further.
Context {F : Type} {Sub : Substrate F}.
Implicit Types (sig y out : list F).

Lemma remove_nans_clean sig :
  Forall (fun x => isnan x = false) sig -> (_remove_nans sig).1 = sig.
Proof.
  simpl. induction 1 as [|x l Hx _ IH]; simpl; [done|].
  rewrite Hx. simpl. by rewrite IH.
Qed.

Lemma drop_edge_lookup y (filt_len j : nat) :
  (0 < filt_len)%nat ->
  (j < length y)%nat ->
  length (_drop_edge_artifacts y filt_len) = length y
  /\ _drop_edge_artifacts y filt_len !! j
     = if (j <? edge_width filt_len)%nat
          || (length y - edge_width filt_len <=? j)%nat
       then Some nan else y !! j.
Proof.
  intros Hpos Hj. split; [apply _drop_edge_artifacts_length|].
  assert (0 < edge_width filt_len)%nat as Hw.
  { rewrite edge_width_half. apply Nat.div_str_pos. lia. }
  unfold _drop_edge_artifacts. fold (edge_width filt_len).
  set (n := edge_width filt_len) in *.
  assert (Hlen : length (replicate (n `min` length y) nan ++ drop n y)
                 = length y).
  { rewrite length_app, length_replicate, length_drop. lia. }
  rewrite Hlen. unfold tail_start.
  destruct (Nat.eqb_spec n 0) as [|_]; [lia|].
  destruct (Nat.leb_spec (length y - n) j) as [Hs|Hs].
  - rewrite orb_true_r.
    rewrite lookup_app_r by (rewrite length_take; lia).
    apply lookup_replicate_2. rewrite length_take. lia.
  - rewrite orb_false_r.
    rewrite lookup_app_l by (rewrite length_take; lia).
    rewrite lookup_take_lt by done.
    destruct (Nat.ltb_spec j n) as [Hn|Hn].
    + rewrite lookup_app_l by (rewrite length_replicate; lia).
      apply lookup_replicate_2. lia.
    + rewrite lookup_app_r by (rewrite length_replicate; lia).
      rewrite length_replicate, lookup_drop.
      by replace (n + (j - n `min` length y))%nat with j by lia.
Qed.

Lemma _restore_nans_Ok_length y (nans : list bool) out :
  _restore_nans y nans = Ok out ->
  length y = 1%nat \/ length y = count_true (map negb nans).
Proof.
  unfold _restore_nans, setitem_mask.
  destruct y as [|v [|v' y]]; [|by left|];
    (match goal with
     | |- context [(?a =? ?b)%nat] => destruct (Nat.eqb_spec a b)
     end; [by right | done]).
Qed.

(** What the FIR path went through when it returns. *)
Lemma filter_signal_fir_Ok sig fs pass_type fc n_cycles n_seconds
  (plot rk ctb rea : bool) out k :
  outcome (filter_signal_fir sig fs pass_type fc n_cycles n_seconds
             plot rk ctb rea) = Ok (out, k) ->
  exists kern y,
    design_fir_filter pass_type fc n_cycles n_seconds fs (length sig) = Ok kern
    /\ convolve_same kern (_remove_nans sig).1 = Ok y
    /\ _restore_nans (if rea then _drop_edge_artifacts y (length kern) else y)
         (map isnan sig) = Ok out
    /\ k = (if rk then Some (FirKernel kern) else None).
Proof.
  rewrite filter_signal_fir_outcome. intros H.
  apply result_bind_Ok in H as (kern & Hd & H).
  apply result_bind_Ok in H as (_ & _ & H).
  apply result_bind_Ok in H as (y & Hy & H).
  apply result_bind_Ok in H as (out' & Hr & [= <- <-]).
  by exists kern, y.
Qed.

(** What the IIR path went through when it returns. *)
Lemma filter_signal_iir_Ok sig fs pass_type fc order (plot rk ctb : bool)
  out k :
  outcome (filter_signal_iir sig fs pass_type fc order plot rk ctb)
  = Ok (out, k) ->
  exists b_vals a_vals y,
    outcome (design_iir_filter pass_type fc order fs) = Ok (b_vals, a_vals)
    /\ filtfilt b_vals a_vals (_remove_nans sig).1 = Ok y
    /\ _restore_nans y (map isnan sig) = Ok out
    /\ k = (if rk then Some (IirKernel b_vals a_vals) else None).
Proof.
  rewrite filter_signal_iir_outcome. intros H.
  apply result_bind_Ok in H as ([b_vals a_vals] & Hd & H).
  apply result_bind_Ok in H as (_ & _ & H).
  apply result_bind_Ok in H as (y & Hy & H).
  apply result_bind_Ok in H as (out' & Hr & [= <- <-]).
  by exists b_vals, a_vals, y.
Qed.

(** X3. The data that [filter_signal] returns does not depend on
    [compute_transition_band] and [plot_freq_response]: two calls that differ
    in these options only and both return, return the same filtered signal
    and kernel, and a call that returns with them on returns the same with
    them off. *)
Theorem filter_signal_data_independent_of_checks sig fs pass_type fc n_cycles
  n_seconds (iir : bool) order (plot plot' rk ctb ctb' rea : bool) r :
  outcome (filter_signal sig fs pass_type fc n_cycles n_seconds iir order
             plot rk ctb rea) = Ok r ->
  outcome (filter_signal sig fs pass_type fc n_cycles n_seconds iir order
             false rk false rea) = Ok r
  /\ forall r',
       outcome (filter_signal sig fs pass_type fc n_cycles n_seconds iir order
                  plot' rk ctb' rea) = Ok r' ->
       r' = r.
Proof.
  intros H. pose proof (filter_signal_without_checks _ _ _ _ _ _ _ _ _ false
                          _ _ _ _ H) as H0.
  split; [done|]. intros r' H'.
  apply (filter_signal_without_checks _ _ _ _ _ _ _ _ _ false) in H'.
  congruence.
Qed.

(** X4. [return_kernel] only adds the kernel to what is returned: a call
    that returns with it on returns the same filtered signal with it off, and
    the kernel handed back is the one the design produced. *)
Theorem return_kernel_adds_the_designed_kernel sig fs pass_type fc n_cycles
  n_seconds (iir : bool) order (plot ctb rea : bool) out k :
  outcome (filter_signal sig fs pass_type fc n_cycles n_seconds iir order
             plot true ctb rea) = Ok (out, k) ->
  outcome (filter_signal sig fs pass_type fc n_cycles n_seconds iir order
             plot false ctb rea) = Ok (out, None)
  /\ if iir
     then exists b_vals a_vals,
            outcome (design_iir_filter pass_type fc order fs)
            = Ok (b_vals, a_vals)
            /\ k = Some (IirKernel b_vals a_vals)
     else exists kern,
            design_fir_filter pass_type fc n_cycles n_seconds fs (length sig)
            = Ok kern
            /\ k = Some (FirKernel kern).
Proof.
  unfold filter_signal. destruct iir.
  - rewrite !outcome_bind.
    destruct (outcome (_iir_checks _ _ _)) as [[]|e]; simpl; [|done].
    intros H. destruct (filter_signal_iir_Ok _ _ _ _ _ _ _ _ _ _ H)
      as (b_vals & a_vals & y & Hd & Hy & Hr & ->).
    split; [|by exists b_vals, a_vals].
    rewrite filter_signal_iir_outcome in H |- *.
    rewrite Hd in H |- *. simpl in *.
    destruct (if ctb then _ else _) as [[]|e]; simpl in *; [|done].
    rewrite Hy in H |- *. simpl in *. by rewrite Hr.
  - intros H. destruct (filter_signal_fir_Ok _ _ _ _ _ _ _ _ _ _ _ _ H)
      as (kern & y & Hd & Hy & Hr & ->).
    split; [|by exists kern].
    rewrite filter_signal_fir_outcome in H |- *.
    rewrite Hd in H |- *. simpl in *.
    destruct (if ctb then _ else _) as [[]|e]; simpl in *; [|done].
    rewrite Hy in H |- *. simpl in *. by rewrite Hr.
Qed.

(** X5. The IIR path keeps the missing samples where they are: when
    [filter_signal] returns on the IIR path, and [signal.filtfilt] has
    returned as many samples as it was given and none of them NaN, the output
    has a NaN exactly where the signal has one, whatever
    [remove_edge_artifacts] is. *)
Theorem iir_output_nan_positions sig fs pass_type fc n_cycles n_seconds order
  (plot rk ctb rea : bool) b_vals a_vals out k :
  outcome (design_iir_filter pass_type fc order fs) = Ok (b_vals, a_vals) ->
  (forall y, filtfilt b_vals a_vals (_remove_nans sig).1 = Ok y ->
             length y = length (_remove_nans sig).1
             /\ Forall (fun x => isnan x = false) y) ->
  outcome (filter_signal sig fs pass_type fc n_cycles n_seconds true order
             plot rk ctb rea) = Ok (out, k) ->
  length out = length sig
  /\ forall i, (i < length sig)%nat -> nan_at out i = nan_at sig i.
Proof.
  intros Hd Hff. unfold filter_signal. rewrite outcome_bind.
  destruct (outcome (_iir_checks _ _ _)) as [[]|e]; simpl; [|done].
  intros (b' & a' & y & Hd' & Hy & Hr & _)%filter_signal_iir_Ok.
  rewrite Hd in Hd'. simplify_eq. destruct (Hff _ Hy) as [Hlen Hclean].
  split; [rewrite (_restore_nans_length _ _ _ Hr); apply length_map|].
  intros i Hi. destruct (lookup_lt_is_Some_2 sig i Hi) as [x Hx].
  fold (n_valid sig) in Hlen.
  assert (length y = 1%nat -> (n_valid sig <= 1)%nat) as Hone by lia.
  unfold nan_at. rewrite (_restore_nans_lookup _ _ _ Hr Hone i x Hx), Hx.
  destruct (isnan x) eqn:Hnan; [apply isnan_nan|].
  pose proof (rank_lt_n_valid _ _ _ Hx Hnan) as Hrank.
  destruct (lookup_lt_is_Some_2 y (rank sig i)) as [v Hv]; [lia|].
  rewrite Hv. simpl. by eapply (proj1 (Forall_lookup _ _) Hclean).
Qed.

(** X6. The FIR path puts the filtered samples back in order: at the
    position of the [r]-th sample of the signal that is not NaN the output
    has the [r]-th item of the convolution, or [np.nan] when edge removal is
    on and that sample is among the first or last [ceil(kernel_length / 2)]
    of them. *)
Theorem fir_output_samples_in_order sig fs pass_type fc n_cycles n_seconds
  order (plot rk ctb rea : bool) kern y out k :
  firwin_length ->
  convolve_same_length ->
  design_fir_filter pass_type fc n_cycles n_seconds fs (length sig) = Ok kern ->
  convolve_same kern (_remove_nans sig).1 = Ok y ->
  outcome (filter_signal sig fs pass_type fc n_cycles n_seconds false order
             plot rk ctb rea) = Ok (out, k) ->
  forall i x, sig !! i = Some x -> isnan x = false ->
    is_Some (y !! rank sig i)
    /\ out !! i
       = if rea && in_stripped_edge sig (edge_width (length kern)) i
         then Some nan else y !! rank sig i.
Proof.
  intros Hfw Hcv Hd Hy (kern' & y' & Hd' & Hy' & Hr & _)%filter_signal_fir_Ok.
  rewrite Hd in Hd'. simplify_eq. rewrite Hy in Hy'. simplify_eq.
  intros i x Hx Hnan. pose proof (Hcv _ _ _ Hy) as Hlen.
  fold (n_valid sig) in Hlen.
  pose proof (rank_lt_n_valid _ _ _ Hx Hnan) as Hrank.
  pose proof (design_fir_filter_length _ _ _ _ _ _ _ Hfw Hd) as Hodd.
  assert (0 < length kern')%nat as Hpos by (destruct (length kern'); [done|lia]).
  set (z := if rea then _drop_edge_artifacts y' (length kern') else y') in *.
  assert (length z = length y') as Hz
    by (unfold z; destruct rea; [apply _drop_edge_artifacts_length|done]).
  assert (length z = 1%nat -> (n_valid sig <= 1)%nat) as Hone by lia.
  assert (length y' = n_valid sig) as Hyn.
  { apply _restore_nans_Ok_length in Hr. rewrite count_true_valid in Hr. lia. }
  destruct (lookup_lt_is_Some_2 y' (rank sig i)) as [v Hv]; [lia|].
  split; [by eexists|].
  rewrite (_restore_nans_lookup _ _ _ Hr Hone i x Hx), Hnan.
  unfold z. destruct rea; simpl; [|by rewrite Hv].
  destruct (drop_edge_lookup y' (length kern') (rank sig i) Hpos) as [_ ->];
    [lia|].
  unfold in_stripped_edge. rewrite Hyn.
  destruct (_ || _); [done|]. by rewrite Hv.
Qed.

(** X7. On a signal without NaN and with edge removal off, what the FIR
    path returns is the convolution of the kernel with the signal itself. *)
Theorem clean_signal_output_is_convolution sig fs pass_type fc n_cycles
  n_seconds order (plot rk ctb : bool) kern out k :
  firwin_length ->
  convolve_same_length ->
  Forall (fun x => isnan x = false) sig ->
  design_fir_filter pass_type fc n_cycles n_seconds fs (length sig) = Ok kern ->
  outcome (filter_signal sig fs pass_type fc n_cycles n_seconds false order
             plot rk ctb false) = Ok (out, k) ->
  convolve_same kern sig = Ok out.
Proof.
  intros Hfw Hcv Hclean Hd H.
  change (outcome (filter_signal_fir sig fs pass_type fc n_cycles n_seconds
                     plot rk ctb false) = Ok (out, k)) in H.
  apply filter_signal_fir_Ok in H as (kern' & y & Hd' & Hy & Hr & _).
  rewrite Hd in Hd'. simplify_eq.
  rewrite remove_nans_clean in Hy by done. rewrite Hy. f_equal.
  pose proof (Hcv _ _ _ Hy) as Hlen.
  pose proof (design_fir_filter_length _ _ _ _ _ _ _ Hfw Hd) as Hodd.
  destruct (design_fir_filter_Ok _ _ _ _ _ _ _ Hd)
    as (f_lo & f_hi & raw & c & pz & _ & _ & Hlt & Hk).
  apply Hfw in Hk.
  assert (length y = length sig) as Hlen'.
  { destruct (length kern') as [|n] eqn:E; [done|]. lia. }
  pose proof (_restore_nans_length _ _ _ Hr) as Hout.
  rewrite length_map in Hout.
  assert (length y = 1%nat -> (n_valid sig <= 1)%nat) as Hone
    by (rewrite n_valid_no_nan by done; lia).
  apply list_eq. intros i.
  destruct (sig !! i) as [x|] eqn:Hx.
  - rewrite (_restore_nans_lookup _ _ _ Hr Hone i x Hx).
    rewrite (proj1 (Forall_lookup _ _) Hclean i x Hx).
    rewrite rank_no_nan by (done || apply lookup_lt_Some in Hx; lia).
    apply lookup_lt_Some in Hx.
    destruct (lookup_lt_is_Some_2 y i) as [v Hv]; [lia|]. by rewrite Hv.
  - apply lookup_ge_None in Hx.
    rewrite !(proj2 (lookup_ge_None _ _)) by lia. done.
Qed.


(** X8. The too-long check counts the NaN samples with the others: when the
    kernel fits the signal but is longer than what is left of it once the NaN
    are removed, the FIR path never returns (the convolution has the length
    of the kernel and cannot be put back at the places of the samples). *)
Theorem too_few_valid_samples_raises sig fs pass_type fc n_cycles n_seconds
  order (plot rk ctb rea : bool) kern :
  convolve_same_length ->
  design_fir_filter pass_type fc n_cycles n_seconds fs (length sig) = Ok kern ->
  (n_valid sig < length kern)%nat ->
  (1 < length kern)%nat ->
  exists e,
    outcome (filter_signal sig fs pass_type fc n_cycles n_seconds false order
               plot rk ctb rea) = Raise e.
Proof.
  intros Hcv Hd Hfew Hone.
  destruct (outcome (filter_signal _ _ _ _ _ _ _ _ _ _ _ _)) as [[out k]|e]
    eqn:H; [|by exists e].
  apply filter_signal_fir_Ok in H as (kern' & y & Hd' & Hy & Hr & _).
  rewrite Hd in Hd'. simplify_eq.
  apply _restore_nans_Ok_length in Hr. rewrite count_true_valid in Hr.
  pose proof (Hcv _ _ _ Hy) as Hlen. fold (n_valid sig) in Hlen.
  assert (length (if rea then _drop_edge_artifacts y (length kern') else y)
          = length y) as Hy'
    by (destruct rea; [apply _drop_edge_artifacts_length|done]).
  lia.
Qed.

Lemma edge_width_double (n : nat) :
  Z.odd (Z.of_nat n) = true -> (2 * edge_width n = n + 1)%nat.
Proof.
  intros H. unfold edge_width. rewrite Qceiling_half.
  pose proof (Zmod_odd (Z.of_nat n)) as Hm. rewrite H in Hm.
  Z.to_euclidean_division_equations. lia.
Qed.

(** X9. With edge removal on, a signal with at most [kernel_length + 1]
    samples that are not NaN comes back as NaN everywhere: the two blanked
    edges cover the whole filtered signal. *)
Theorem short_signal_all_nan sig fs pass_type fc n_cycles n_seconds order
  (plot rk ctb : bool) kern out k :
  firwin_length ->
  convolve_same_length ->
  design_fir_filter pass_type fc n_cycles n_seconds fs (length sig) = Ok kern ->
  (forall y, convolve_same kern (_remove_nans sig).1 = Ok y ->
             Forall (fun x => isnan x = false) y) ->
  (n_valid sig <= length kern + 1)%nat ->
  outcome (filter_signal sig fs pass_type fc n_cycles n_seconds false order
             plot rk ctb true) = Ok (out, k) ->
  Forall (fun x => isnan x = true) out.
Proof.
  intros Hfw Hcv Hd Hclean Hshort H.
  change (outcome (filter_signal_fir sig fs pass_type fc n_cycles n_seconds
                     plot rk ctb true) = Ok (out, k)) in H.
  destruct (fir_output_nan_positions _ _ _ _ _ _ _ _ _ _ _ _ _
              Hfw Hcv Hd Hclean H) as [Hlen Hpos].
  pose proof (design_fir_filter_length _ _ _ _ _ _ _ Hfw Hd) as Hodd.
  assert (n_valid sig <= 2 * edge_width (length kern))%nat as Hw
    by (rewrite edge_width_double by done; lia).
  apply Forall_lookup. intros i x Hx.
  assert (i < length sig)%nat as Hi by (apply lookup_lt_Some in Hx; lia).
  specialize (Hpos i Hi). unfold nan_at at 1 in Hpos. rewrite Hx in Hpos.
  rewrite Hpos. simpl. unfold in_stripped_edge.
  destruct (nan_at sig i); [done|]. simpl.
  apply orb_true_iff.
  destruct (Nat.ltb_spec (rank sig i) (edge_width (length kern))); [by left|].
  right. apply Nat.leb_le. lia.
Qed.


(** X10. Edge removal touches the edges only: it keeps the length, puts
    [np.nan] on the first and last [ceil(filt_len / 2)] samples and leaves
    every sample between them as it was. *)
Theorem _drop_edge_artifacts_lookup y (filt_len j : nat) :
  (0 < filt_len)%nat ->
  (j < length y)%nat ->
  length (_drop_edge_artifacts y filt_len) = length y
  /\ _drop_edge_artifacts y filt_len !! j
     = if (j <? edge_width filt_len)%nat
          || (length y - edge_width filt_len <=? j)%nat
       then Some nan else y !! j.
Proof. apply drop_edge_lookup. Qed.

(** X11. [_remove_nans] returns the samples that are not NaN, in their order,
    and a mask as long as the signal: the stripped signal has no NaN, is a
    sublist of the signal, and its length and the number of masked samples
    add up to the length of the signal. *)
Theorem _remove_nans_spec sig :
  Forall (fun x => isnan x = false) (_remove_nans sig).1
  /\ sublist (_remove_nans sig).1 sig
  /\ length (_remove_nans sig).2 = length sig
  /\ (length (_remove_nans sig).1 + count_true (_remove_nans sig).2
      = length sig)%nat.
Proof.
  unfold count_true. simpl. split; [|split; [|split]].
  - induction sig as [|x sig IH]; simpl; [constructor|].
    destruct (isnan x) eqn:Hx; simpl; [done|]. by constructor.
  - induction sig as [|x sig IH]; simpl; [constructor|].
    destruct (isnan x); simpl; by constructor.
  - apply length_map.
  - induction sig as [|x sig IH]; simpl; [done|].
    destruct (isnan x); simpl; lia.
Qed.

(** X12. Removing the NaN after restoring them gives back what was
    restored: for filtered samples without NaN, as many as the mask leaves
    room for, [_restore_nans] returns, and [_remove_nans] of its result is the
    pair of those samples and that mask. *)
Theorem remove_restore_nans_roundtrip y (nans : list bool) :
  Forall (fun x => isnan x = false) y ->
  length y = count_true (map negb nans) ->
  exists out, _restore_nans y nans = Ok out /\ _remove_nans out = (y, nans).
Proof.
  intros Hclean Hlen. eexists. split.
  - unfold _restore_nans. by apply setitem_mask_exact.
  - unfold _remove_nans. revert y Hclean Hlen.
    induction nans as [|[] nans IH]; intros y Hclean Hlen.
    + destruct y; [done|]. discriminate Hlen.
    + specialize (IH y Hclean Hlen). simpl in *. rewrite isnan_nan. simpl.
      injection IH as IH1 IH2. by rewrite IH1, IH2.
    + unfold count_true in Hlen. simpl in Hlen.
      destruct Hclean as [|v y Hv Hclean]; [discriminate Hlen|].
      simpl in Hlen. injection Hlen as Hlen.
      specialize (IH y Hclean Hlen). simpl in *. rewrite Hv. simpl.
      injection IH as IH1 IH2. by rewrite IH1, IH2.
Qed.

(** ** Design and checks *)

Lemma result_bind_Ok_l {A B} (a : A) (f : A -> result B) : Ok a ≫= f = f a.
Proof. done. Qed.

Lemma bind_lift_Ok {A B} (a : A) (f : A -> M F B) : lift (Ok a) ≫= f = f a.
Proof. unfold mbind, M_bind, lift. simpl. by destruct (f a). Qed.

Lemma bind_lift_Raise {A B} (e : exn) (f : A -> M F B) :
  lift (Raise e) ≫= f = mkM [] (Raise e).
Proof. done. Qed.

Lemma bind_emit {B} (ev : event F) (f : unit -> M F B) :
  emit ev ≫= f = mkM (ev :: events (f tt)) (outcome (f tt)).
Proof. done. Qed.

Lemma bind_mret {A B} (a : A) (f : A -> M F B) : mret a ≫= f = f a.
Proof. unfold mbind, M_bind, mret, M_ret. simpl. by destruct (f a). Qed.

(** X13. [design_iir_filter] emits the advisory on notch filters, and
    nothing else, for every pass type but bandstop, before it looks at the
    definition: a definition that is then rejected has been warned about
    too, and a bandstop design is silent. *)
Theorem design_iir_filter_advisory pass_type fc (order : option Z) fs :
  events (design_iir_filter (F := F) pass_type fc order fs)
  = if String.eqb pass_type "bandstop" then [] else [Warn msg_iir_notch []].
Proof.
  unfold design_iir_filter.
  assert (forall m : M F (list F * list F),
            events m = [] ->
            events (when (negb (String.eqb pass_type "bandstop"))
                      (warn msg_iir_notch []) ≫= fun _ => m)
            = if String.eqb pass_type "bandstop" then []
              else [Warn msg_iir_notch []]) as Hw.
  { intros m Hm. rewrite events_bind.
    destruct (String.eqb pass_type "bandstop"); simpl; by rewrite Hm. }
  apply Hw.
  destruct (check_filter_definition pass_type fc) as [[f_lo f_hi]|e];
    [|done].
  rewrite bind_lift_Ok.
  match goal with
  | |- events (lift ?w ≫= _) = _ => destruct w as [win|e]; [|done]
  end.
  rewrite bind_lift_Ok. done.
Qed.

(** X14. For a band filter with two ordered cutoffs and a sampling rate
    that is not zero, the IIR design hands [signal.butter] the order, the two
    cutoffs divided by the Nyquist frequency [fs / 2], and the pass type:
    what [signal.butter] returns or raises is the outcome of the design. *)
Theorem design_iir_filter_normalises_band pass_type (lo hi : Q)
  (order : option Z) fs :
  pass_type = "bandpass" \/ pass_type = "bandstop" ->
  (lo < hi)%Q ->
  ~ (fs == 0)%Q ->
  outcome (design_iir_filter pass_type (FcTuple [PyNum lo; PyNum hi]) order fs)
  = butter order (Band (PyNum (lo / (fs / 2))) (PyNum (hi / (fs / 2))))
      pass_type.
Proof.
  intros Hp Hlt Hfs.
  assert (Qle_bool hi lo = false) as Hle.
  { destruct (Qle_bool hi lo) eqn:E; [|done].
    apply Qle_bool_iff in E. by apply Qle_not_lt in E. }
  assert (Qeq_bool (compute_nyquist fs) 0 = false) as Hny.
  { destruct (Qeq_bool (compute_nyquist fs) 0) eqn:E; [|done].
    apply Qeq_bool_iff in E. exfalso. apply Hfs. unfold compute_nyquist in E.
    rewrite <- (Qmult_div_r fs 2) by done. rewrite E. reflexivity. }
  unfold design_iir_filter. rewrite outcome_bind.
  assert (check_filter_definition pass_type (FcTuple [PyNum lo; PyNum hi])
          = Ok (PyNum lo, PyNum hi)) as Hc
    by (destruct Hp as [-> | ->]; unfold check_filter_definition; simpl;
        by rewrite Hle).
  rewrite Hc, bind_lift_Ok.
  assert (str_in pass_type ["bandpass"; "bandstop"] = true) as ->
    by (by destruct Hp as [-> | ->]).
  unfold py_div. rewrite Hny.
  destruct (negb (String.eqb pass_type "bandstop")); simpl;
    by destruct (butter _ _ _).
Qed.

(** X15. The kernel of the FIR design is the one [signal.firwin] returns for
    the checked length, the Nyquist frequency [fs / 2] and the band edges of
    the pass type, with [pass_zero] off for bandpass and highpass and on for
    bandstop and lowpass. *)
Theorem design_fir_filter_firwin_call pass_type fc n_cycles n_seconds fs
  sig_length (kern : list F) :
  design_fir_filter pass_type fc n_cycles n_seconds fs sig_length = Ok kern ->
  exists f_lo f_hi filt_len,
    check_filter_definition pass_type fc = Ok (f_lo, f_hi)
    /\ _fir_checks pass_type f_lo f_hi n_cycles n_seconds fs sig_length
       = Ok filt_len
    /\ firwin filt_len
         (if str_in pass_type ["bandpass"; "bandstop"] then Band f_lo f_hi
          else if String.eqb pass_type "highpass" then Edge f_lo
          else Edge f_hi)
         (str_in pass_type ["bandstop"; "lowpass"])
         (fs / 2)%Q
       = Ok kern.
Proof.
  unfold design_fir_filter. intros H.
  destruct (check_filter_definition pass_type fc) as [[f_lo f_hi]|e] eqn:Hc;
    simpl in H; [|done].
  destruct (_fir_checks _ _ _ _ _ _ _) as [n|e] eqn:Hf; simpl in H; [|done].
  exists f_lo, f_hi, n. split; [done|]. split; [done|].
  destruct (check_filter_definition_pass_type _ _ _ Hc)
    as [-> | [-> | [-> | ->]]]; exact H.
Qed.

(** X16. A filter that fits a signal fits every longer one, with the same
    length; a filter too long for a signal is too long for every shorter
    one. *)
Theorem _fir_checks_monotone pass_type f_lo f_hi n_cycles n_seconds fs
  (n m : nat) :
  (n <= m)%nat ->
  (forall filt_len,
     _fir_checks pass_type f_lo f_hi n_cycles n_seconds fs n = Ok filt_len ->
     _fir_checks pass_type f_lo f_hi n_cycles n_seconds fs m = Ok filt_len)
  /\ (_fir_checks pass_type f_lo f_hi n_cycles n_seconds fs m
        = Raise FilterTooLong ->
      _fir_checks pass_type f_lo f_hi n_cycles n_seconds fs n
        = Raise FilterTooLong).
Proof.
  intros Hnm. unfold _fir_checks.
  destruct (raw_filt_len _ _ _ _ _ _) as [raw|e]; simpl.
  - destruct (Z.geb_spec (force_odd raw) (Z.of_nat n));
      destruct (Z.geb_spec (force_odd raw) (Z.of_nat m)); split; try done; lia.
  - split; [done|]. intros [= ->]. done.
Qed.

(** X17. For bandpass and bandstop the definition check returns only for a
    tuple or a list of exactly two items, which it hands back as the lower
    and the higher cutoff. A tuple of two numbers passes exactly when the
    first is strictly below the second, and raises the error on the ordering
    otherwise; a list of two items passes whatever their order, the ordering
    test being made on tuples only. *)
Theorem check_band_definition_forms pass_type :
  pass_type = "bandpass" \/ pass_type = "bandstop" ->
  (forall fc f_lo f_hi,
     check_filter_definition pass_type fc = Ok (f_lo, f_hi) ->
     fc = FcTuple [f_lo; f_hi] \/ fc = FcList [f_lo; f_hi])
  /\ (forall a b : Q,
        check_filter_definition pass_type (FcTuple [PyNum a; PyNum b])
        = if Qlt_bool a b then Ok (PyNum a, PyNum b)
          else Raise (ValueError msg_second_greater))
  /\ (forall a b : pyval,
        check_filter_definition pass_type (FcList [a; b]) = Ok (a, b)).
Proof.
  intros Hp. split; [|split].
  - intros fc f_lo f_hi Hc.
    destruct (check_band_Ok _ _ _ _ Hp Hc)
      as [(a & b & -> & _ & -> & ->) | ->]; [by left | by right].
  - intros a b. unfold Qlt_bool.
    destruct Hp as [-> | ->]; unfold check_filter_definition; simpl;
      by destruct (Qle_bool b a).
  - intros a b. by destruct Hp as [-> | ->].
Qed.

(** ** The side channel *)

Lemma no_plot_bind {A B} (m : M F A) (f : A -> M F B) :
  existsb is_plot (events m) = false ->
  (forall a, existsb is_plot (events (f a)) = false) ->
  existsb is_plot (events (m ≫= f)) = false.
Proof.
  intros Hm Hf. rewrite events_bind, existsb_app, Hm. simpl.
  by destruct (outcome m).
Qed.

Lemma no_plot_when (b : bool) (m : M F unit) :
  existsb is_plot (events m) = false ->
  existsb is_plot (events (when b m)) = false.
Proof. by destruct b. Qed.

Lemma check_filter_properties_no_plot (b : list F) a fs pass_type fc tr :
  existsb is_plot (events (check_filter_properties b a fs pass_type fc tr))
  = false.
Proof.
  unfold check_filter_properties.
  apply no_plot_bind; [done|]. intros [f_lo f_hi].
  apply no_plot_bind; [done|]. intros [f_db db].
  apply no_plot_bind; [done|]. intros lowest.
  destruct (Qle_bool tr.1 lowest); [done|].
  apply no_plot_bind.
  - destruct (String.eqb pass_type "bandpass"); [|done].
    apply no_plot_bind; [done|]. intros d0.
    destruct (Qle_bool tr.1 d0); [done|].
    apply no_plot_bind; [done|]. intros dn. by apply no_plot_when.
  - intros ?. cbv beta. apply no_plot_bind; [done|]. intros pass_bw.
    apply no_plot_bind; [done|]. intros transition_bw.
    apply no_plot_bind; [done|]. intros wide.
    apply no_plot_bind; [by apply no_plot_when|]. intros ?. cbv beta.
    by apply no_plot_bind.
Qed.

Lemma design_iir_filter_no_plot pass_type fc (order : option Z) fs :
  existsb is_plot (events (design_iir_filter (F := F) pass_type fc order fs))
  = false.
Proof.
  unfold design_iir_filter.
  apply no_plot_bind; [by apply no_plot_when|]. intros ?. cbv beta.
  apply no_plot_bind; [done|]. intros [f_lo f_hi].
  by apply no_plot_bind.
Qed.

(** X18. The frequency response is plotted when the call asks for it and
    the filtering has gone through, and in no other case: a call of
    [filter_signal] that raises has drawn nothing. *)
Theorem plot_only_after_filtering sig fs pass_type fc n_cycles n_seconds
  (iir : bool) order (plot rk ctb rea : bool) :
  existsb is_plot
    (events (filter_signal sig fs pass_type fc n_cycles n_seconds iir order
               plot rk ctb rea))
  = plot
    && returned_ok
         (outcome (filter_signal sig fs pass_type fc n_cycles n_seconds iir
                     order plot rk ctb rea)).
Proof.
  assert (forall (out : list F) (k k' : option kernel) (b : list F)
                 (a : denom F),
            let m : M F returned :=
              when plot (plot_frequency_response fs b a) ≫= fun _ =>
                if rk then mret (out, k) else mret (out, k') in
            existsb is_plot (events m) = plot
            /\ returned_ok (outcome m) = true) as Hend
    by (intros; by destruct plot, rk).
  assert (forall kern a,
            existsb is_plot
              (events (when ctb (check_filter_properties kern a fs pass_type
                                   fc default_transitions))) = false)
    as Hchk by (intros; apply no_plot_when, check_filter_properties_no_plot).
  unfold filter_signal. destruct iir.
  - rewrite events_bind, outcome_bind, existsb_app, _iir_checks_run.
    cbn [events outcome].
    replace (existsb is_plot (if rea then [Warn msg_iir_edge []] else []))
      with false by (by destruct rea).
    destruct n_seconds as [secs|]; [by destruct plot|].
    destruct order as [n|]; [|by destruct plot].
    rewrite orb_false_l, result_bind_Ok_l. cbv beta iota.
    unfold filter_signal_iir.
    rewrite events_bind, outcome_bind, existsb_app, design_iir_filter_no_plot.
    destruct (outcome (design_iir_filter _ _ _ _)) as [[b_vals a_vals]|e];
      [|by destruct plot].
    rewrite orb_false_l, result_bind_Ok_l. cbv beta iota.
    rewrite events_bind, outcome_bind, existsb_app, Hchk.
    destruct (outcome (when ctb _)) as [[]|e]; [|by destruct plot].
    rewrite orb_false_l, result_bind_Ok_l.
    cbv beta iota zeta delta [_remove_nans].
    destruct (filtfilt _ _ _) as [y|e]; [|by destruct plot].
    rewrite !bind_lift_Ok.
    destruct (_restore_nans _ _) as [out|e]; [|by destruct plot].
    rewrite !bind_lift_Ok.
    destruct (Hend out (Some (IirKernel b_vals a_vals)) None b_vals
                (DenomVals a_vals)) as [-> ->].
    by rewrite andb_true_r.
  - unfold filter_signal_fir.
    destruct (design_fir_filter _ _ _ _ _ _) as [kern|e]; [|by destruct plot].
    rewrite !bind_lift_Ok.
    rewrite events_bind, outcome_bind, existsb_app, Hchk.
    destruct (outcome (when ctb _)) as [[]|e]; [|by destruct plot].
    rewrite orb_false_l, result_bind_Ok_l.
    cbv beta iota zeta delta [_remove_nans].
    destruct (convolve_same _ _) as [y|e]; [|by destruct plot].
    rewrite !bind_lift_Ok.
    destruct (_restore_nans _ _) as [out|e]; [|by destruct plot].
    rewrite !bind_lift_Ok.
    destruct (Hend out (Some (FirKernel kern)) None kern DenomOne) as [-> ->].
    by rewrite andb_true_r.
Qed.

Lemma bind_mkM_Ok {A B} (evs : list (event F)) (a : A) (f : A -> M F B) :
  mkM evs (Ok a) ≫= f = mkM (evs ++ events (f a)) (outcome (f a)).
Proof. done. Qed.

Lemma np_min_nonempty (db : list Q) :
  db <> [] -> exists m, np_min db = Ok m /\ m ∈ db.
Proof.
  destruct db as [|x xs]; [done|]. intros _. eexists. split; [done|].
  by apply np_min_in.
Qed.

(** X19. When the attenuation goes nowhere below the lower threshold,
    [check_filter_properties] gives one warning and stops there: it returns,
    prints nothing and does not measure any band. *)
Theorem check_filter_properties_no_attenuation (b : list F) a fs pass_type fc
  f_lo f_hi f_db db :
  check_filter_definition pass_type fc = Ok (f_lo, f_hi) ->
  compute_frequency_response b a fs = Ok (f_db, db) ->
  db <> [] ->
  Forall (fun d => (-20 <= d)%Q) db ->
  check_filter_properties b a fs pass_type fc default_transitions
  = mkM [Warn msg_no_attenuation []] (Ok tt).
Proof.
  intros Hc Hr Hne Hall.
  destruct (np_min_nonempty db Hne) as (m & Hm & Hin).
  assert (Qle_bool (-20) m = true) as Hmin
    by (apply Qle_bool_iff; by apply (proj1 (Forall_forall _ _) Hall)).
  unfold check_filter_properties.
  rewrite Hc, bind_lift_Ok. cbv beta iota.
  rewrite Hr, bind_lift_Ok. cbv beta iota.
  rewrite Hm, bind_lift_Ok. cbv beta.
  cbn [default_transitions fst]. by rewrite Hmin.
Qed.

(** X20. When the response has a stopband and both bands can be computed,
    [check_filter_properties] returns, warns that the transition band is too
    wide exactly when the transition bandwidth exceeds the pass bandwidth, and
    ends by printing the two bandwidths. *)
Theorem transition_warning_iff_wider (b : list F) a fs pass_type fc f_lo f_hi
  f_db db d (pass_bw transition_bw : Q) :
  check_filter_definition pass_type fc = Ok (f_lo, f_hi) ->
  compute_frequency_response b a fs = Ok (f_db, db) ->
  d ∈ db -> (d < -20)%Q ->
  compute_pass_band pass_type fc fs = Ok (PyNum pass_bw) ->
  compute_transition_band f_db db (-20) (-3) = Ok transition_bw ->
  let run := check_filter_properties b a fs pass_type fc default_transitions in
  outcome run = Ok tt
  /\ (In (Warn msg_transition_wide [PyNum transition_bw; PyNum pass_bw])
        (events run)
      <-> (pass_bw < transition_bw)%Q)
  /\ exists warnings,
       events run
       = warnings ++ [Print msg_print_transition [PyNum transition_bw];
                      Print msg_print_pass [PyNum pass_bw]].
Proof.
  intros Hc Hr Hd Hlt Hpb Htb.
  destruct (np_min_Ok db d Hd) as (m & Hm & Hmd).
  assert (Qle_bool (-20) m = false) as Hmin.
  { destruct (Qle_bool (-20) m) eqn:E; [|done]. apply Qle_bool_iff in E.
    exfalso. apply (Qlt_irrefl d). eapply Qlt_le_trans; [exact Hlt|].
    by eapply Qle_trans. }
  assert (exists x, first_item db = Ok x) as [x0 Hx0]
    by (destruct db; [by apply elem_of_nil in Hd | by eexists]).
  assert (exists x, last_item db = Ok x) as [xn Hxn].
  { unfold last_item. destruct (last db) eqn:E; [by eexists|].
    apply last_None in E. subst. by apply elem_of_nil in Hd. }
  unfold check_filter_properties.
  rewrite Hc, bind_lift_Ok. cbv beta iota.
  rewrite Hr, bind_lift_Ok. cbv beta iota.
  rewrite Hm, bind_lift_Ok. cbv beta.
  cbn [default_transitions fst snd]. rewrite Hmin.
  match goal with
  | |- context [mbind _ ?blk] =>
      assert (exists stop,
                blk = mkM stop (Ok tt)
                /\ Forall (fun ev => ev = Warn msg_stopband
                                           [PyNum (Qabs (-20))]) stop)
        as (stop & -> & Hstop)
  end.
  { destruct (String.eqb pass_type "bandpass");
      [|by exists []; split; [|constructor]].
    rewrite Hx0, bind_lift_Ok.
    destruct (Qle_bool (-20) x0);
      [eexists; split; [reflexivity|by repeat constructor]|].
    rewrite Hxn, bind_lift_Ok.
    destruct (Qle_bool (-20) xn);
      (eexists; split; [reflexivity|by repeat constructor]). }
  rewrite bind_mkM_Ok, Hpb, bind_lift_Ok, Htb, bind_lift_Ok.
  unfold py_gt. rewrite bind_lift_Ok.
  assert ((pass_bw < transition_bw)%Q <-> Qle_bool transition_bw pass_bw = false)
    as Hiff.
  { destruct (Qle_bool transition_bw pass_bw) eqn:E.
    - apply Qle_bool_iff in E. split; [|done]. intros H.
      by apply Qle_not_lt in E.
    - split; [done|]. intros _. apply Qnot_le_lt. intros H%Qle_bool_iff.
      congruence. }
  assert (~ In (Warn msg_transition_wide [PyNum transition_bw; PyNum pass_bw])
            stop) as Hnot.
  { intros Hin. apply (proj1 (List.Forall_forall _ _) Hstop) in Hin.
    discriminate Hin. }
  rewrite Hiff.
  destruct (Qle_bool transition_bw pass_bw); cbn [negb when outcome events].
  - split; [done|]. split.
    + split; [|done]. intros [Hin | Hin]%in_app_or; [done|].
      simpl in Hin. destruct Hin as [Hin | [Hin | []]]; discriminate Hin.
    + by exists stop.
  - split; [done|]. split.
    + split; [done|]. intros _. apply in_or_app. right. by left.
    + exists (stop ++ [Warn msg_transition_wide
                         [PyNum transition_bw; PyNum pass_bw]]).
      by rewrite <- app_assoc.
Qed.

(** X21. A definition that [check_filter_definition] rejects stops
    [filter_signal] with the same exception: on the FIR path before anything
    is emitted, on the IIR path once its own checks have passed, whatever the
    signal and the other options are. *)
Theorem invalid_definition_propagates sig fs pass_type fc n_cycles n_seconds
  (order : Z) (plot rk ctb rea : bool) e :
  check_filter_definition pass_type fc = Raise e ->
  filter_signal sig fs pass_type fc n_cycles n_seconds false (Some order)
    plot rk ctb rea = mkM [] (Raise e)
  /\ outcome (filter_signal sig fs pass_type fc n_cycles None true
                (Some order) plot rk ctb rea) = Raise e.
Proof.
  intros Hc. split.
  - unfold filter_signal, filter_signal_fir, design_fir_filter.
    by rewrite Hc.
  - unfold filter_signal. rewrite outcome_bind, _iir_checks_run.
    cbn [outcome]. rewrite result_bind_Ok_l. cbv beta.
    rewrite filter_signal_iir_outcome.
    unfold design_iir_filter. rewrite outcome_bind, outcome_when_if.
    assert ((if negb (String.eqb pass_type "bandstop")
             then outcome (warn (F := F) msg_iir_notch []) else Ok tt)
            = Ok tt) as -> by (by destruct (negb _)).
    rewrite result_bind_Ok_l. cbv beta. by rewrite Hc.
Qed.

End Further.

(** ** The further properties on concrete inputs *)

Lemma filter_signal_data_independent_of_checks_witness :
  exists r,
    outcome (filter_signal Exact.sig8 1000 "lowpass" (FcNum 400) 1 None
               false None true true true true) = Ok r
    /\ outcome (filter_signal Exact.sig8 1000 "lowpass" (FcNum 400) 1 None
                  false None false true false true) = Ok r.
Proof.
  eexists. split; [vm_compute; reflexivity|].
  eapply (filter_signal_data_independent_of_checks Exact.sig8 1000 "lowpass"
            (FcNum 400) 1 None false None true false true true false true).
  vm_compute. reflexivity.
Defined.

Lemma return_kernel_adds_the_designed_kernel_witness :
  exists out k,
    outcome (filter_signal Exact.sig8 1000 "lowpass" (FcNum 400) 1 None
               false None false true false true) = Ok (out, k)
    /\ outcome (filter_signal Exact.sig8 1000 "lowpass" (FcNum 400) 1 None
                  false None false false false true) = Ok (out, None).
Proof.
  eexists _, _. split; [vm_compute; reflexivity|].
  eapply (return_kernel_adds_the_designed_kernel Exact.sig8 1000 "lowpass"
            (FcNum 400) 1 None false None false false true).
  vm_compute. reflexivity.
Defined.

Lemma iir_output_nan_positions_witness :
  exists out k,
    outcome (filter_signal Exact.sig8 1000 "lowpass" (FcNum 100) 3 None
               true (Some 1) false false false true) = Ok (out, k)
    /\ length out = length Exact.sig8
    /\ nan_at out 0 = nan_at Exact.sig8 0
    /\ nan_at out 1 = nan_at Exact.sig8 1.
Proof.
  eexists _, _. split; [vm_compute; reflexivity|].
  edestruct (iir_output_nan_positions Exact.sig8 1000 "lowpass" (FcNum 100) 3
               None (Some 1) false false false true) as [Hlen Hpos].
  - vm_compute. reflexivity.
  - intros y Hy. vm_compute in Hy. injection Hy as <-.
    split; [reflexivity|]. repeat constructor.
  - vm_compute. reflexivity.
  - split; [exact Hlen|]. split; apply Hpos; vm_compute; lia.
Defined.

Lemma fir_output_samples_in_order_witness :
  exists y out k,
    convolve_same (replicate 3 (Exact.Num (1 # 3))) (_remove_nans Exact.sig8).1
    = Ok y
    /\ outcome (filter_signal Exact.sig8 1000 "lowpass" (FcNum 400) 1 None
                  false None false false false true) = Ok (out, k)
    /\ out !! 3%nat
       = if true && in_stripped_edge Exact.sig8 (edge_width 3) 3
         then Some Exact.NaN else y !! rank Exact.sig8 3.
Proof.
  eexists _, _, _. split; [vm_compute; reflexivity|].
  split; [vm_compute; reflexivity|].
  eapply (fir_output_samples_in_order Exact.sig8 1000 "lowpass" (FcNum 400) 1
            None None false false false true
            (replicate 3 (Exact.Num (1 # 3))) _ _ _
            ExactFacts.fir_design_length ExactFacts.convolve_length).
  - vm_compute. reflexivity.
  - vm_compute. reflexivity.
  - vm_compute. reflexivity.
  - reflexivity.
  - reflexivity.
Defined.

Lemma clean_signal_output_is_convolution_witness :
  exists out,
    convolve_same (replicate 3 (Exact.Num (1 # 3)))
      [Exact.Num 1; Exact.Num 2; Exact.Num 3; Exact.Num 4; Exact.Num 5]
    = Ok out.
Proof.
  eexists.
  eapply (clean_signal_output_is_convolution
            [Exact.Num 1; Exact.Num 2; Exact.Num 3; Exact.Num 4; Exact.Num 5]
            1000 "lowpass" (FcNum 400) 1 None None false false false
            (replicate 3 (Exact.Num (1 # 3))) _ None
            ExactFacts.fir_design_length ExactFacts.convolve_length).
  - repeat constructor.
  - vm_compute. reflexivity.
  - lazy. reflexivity.
Defined.

Lemma too_few_valid_samples_raises_witness :
  exists e,
    outcome (filter_signal
               [Exact.NaN; Exact.NaN; Exact.NaN; Exact.NaN; Exact.Num 1;
                Exact.Num 2]
               1000 "lowpass" (FcNum 400) 1 None false None
               false false false false) = Raise e.
Proof.
  apply (too_few_valid_samples_raises
           [Exact.NaN; Exact.NaN; Exact.NaN; Exact.NaN; Exact.Num 1;
            Exact.Num 2]
           1000 "lowpass" (FcNum 400) 1 None None false false false false
           (replicate 3 (Exact.Num (1 # 3))) ExactFacts.convolve_length).
  - vm_compute. reflexivity.
  - vm_compute. lia.
  - vm_compute. lia.
Defined.

Lemma short_signal_all_nan_witness :
  exists out k,
    outcome (filter_signal
               [Exact.Num 1; Exact.Num 2; Exact.Num 3; Exact.Num 4]
               1000 "lowpass" (FcNum 400) 1 None false None
               false false false true) = Ok (out, k)
    /\ Forall (fun x => isnan x = true) out.
Proof.
  eexists _, _. split; [vm_compute; reflexivity|].
  eapply (short_signal_all_nan
            [Exact.Num 1; Exact.Num 2; Exact.Num 3; Exact.Num 4]
            1000 "lowpass" (FcNum 400) 1 None None false false false
            (replicate 3 (Exact.Num (1 # 3))) _ None
            ExactFacts.fir_design_length ExactFacts.convolve_length).
  - vm_compute. reflexivity.
  - intros y Hy. vm_compute in Hy. injection Hy as <-. repeat constructor.
  - vm_compute. lia.
  - vm_compute. reflexivity.
Defined.

Lemma _drop_edge_artifacts_lookup_witness :
  _drop_edge_artifacts (_remove_nans Exact.sig8).1 3 !! 3%nat
  = (if (3 <? edge_width 3)%nat
        || (length (_remove_nans Exact.sig8).1 - edge_width 3 <=? 3)%nat
     then Some Exact.NaN else (_remove_nans Exact.sig8).1 !! 3%nat).
Proof.
  refine (proj2 (_drop_edge_artifacts_lookup (_remove_nans Exact.sig8).1 3 3
                   _ _)); vm_compute; lia.
Defined.

Lemma remove_restore_nans_roundtrip_witness :
  exists out,
    _restore_nans [Exact.Num 1; Exact.Num 2] [true; false; false] = Ok out
    /\ _remove_nans out = ([Exact.Num 1; Exact.Num 2], [true; false; false]).
Proof.
  apply (remove_restore_nans_roundtrip [Exact.Num 1; Exact.Num 2]
           [true; false; false]).
  - repeat constructor.
  - reflexivity.
Defined.

Lemma compute_transition_band_needs_two_crossings_witness :
  compute_transition_band [0; 10; 20; 30]%Q [0; 0; -60; -60]%Q (-20) (-3)
  = Raise (ValueError msg_zero_size)
  /\ exists bw,
       compute_transition_band [0; 10; 20; 30; 40]%Q
         [0; -1; -10; -30; -60]%Q (-20) (-3) = Ok bw.
Proof.
  split.
  - apply (compute_transition_band_needs_two_crossings
             [0; 10; 20; 30]%Q [0; 0; -60; -60]%Q (-20) (-3)).
    + simpl. lia.
    + vm_compute. lia.
  - apply (compute_transition_band_needs_two_crossings
             [0; 10; 20; 30; 40]%Q [0; -1; -10; -30; -60]%Q (-20) (-3)).
    + simpl. lia.
    + vm_compute. lia.
Defined.

Lemma compute_transition_band_nonneg_witness :
  compute_transition_band [0; 10; 20; 30; 40]%Q [0; -1; -10; -30; -60]%Q
    (-20) (-3) = Ok (20 - 10)%Q
  /\ (0 <= 20 - 10)%Q.
Proof.
  split; [reflexivity|].
  apply (compute_transition_band_nonneg [0; 10; 20; 30; 40]%Q
           [0; -1; -10; -30; -60]%Q (-20) (-3) (20 - 10)%Q).
  - apply sorted_ascending.
    repeat (apply SSorted_cons;
            [|repeat (apply List.Forall_cons; [discriminate|]);
              apply List.Forall_nil]).
    apply SSorted_nil.
  - reflexivity.
Defined.

Lemma design_iir_filter_normalises_band_witness :
  outcome (design_iir_filter (Sub := Exact.substrate) "bandstop"
             (FcTuple [PyNum 58; PyNum 62]) (Some 2) 1000)
  = butter (Some 2)
      (Band (PyNum (58 / (1000 / 2))) (PyNum (62 / (1000 / 2)))) "bandstop".
Proof.
  apply (design_iir_filter_normalises_band (Sub := Exact.substrate) "bandstop"
           58 62 (Some 2) 1000).
  - by right.
  - reflexivity.
  - vm_compute. discriminate.
Defined.

Lemma design_fir_filter_firwin_call_witness :
  exists f_lo f_hi filt_len,
    check_filter_definition "bandpass" (FcTuple [PyNum 8; PyNum 12])
    = Ok (f_lo, f_hi)
    /\ _fir_checks "bandpass" f_lo f_hi 3 None 1000 5000 = Ok filt_len
    /\ firwin filt_len (Band f_lo f_hi) false (1000 / 2)%Q
       = Ok (replicate 375 (Exact.Num (1 # 375))).
Proof.
  apply (design_fir_filter_firwin_call "bandpass"
           (FcTuple [PyNum 8; PyNum 12]) 3 None 1000 5000
           (replicate 375 (Exact.Num (1 # 375)))).
  vm_compute. reflexivity.
Defined.

Lemma _fir_checks_monotone_witness :
  _fir_checks "bandpass" (PyNum 8) (PyNum 12) 3 None 1000 500 = Ok 375
  /\ _fir_checks "bandpass" (PyNum 8) (PyNum 12) 3 None 1000 300
     = Raise FilterTooLong.
Proof.
  split.
  - apply (_fir_checks_monotone "bandpass" (PyNum 8) (PyNum 12) 3 None 1000
             400 500); [lia | reflexivity].
  - apply (_fir_checks_monotone "bandpass" (PyNum 8) (PyNum 12) 3 None 1000
             300 375); [lia | reflexivity].
Defined.

Lemma check_band_definition_forms_witness :
  check_filter_definition "bandstop" (FcTuple [PyNum 58; PyNum 62])
  = Ok (PyNum 58, PyNum 62)
  /\ check_filter_definition "bandstop" (FcTuple [PyNum 62; PyNum 58])
     = Raise (ValueError msg_second_greater)
  /\ check_filter_definition "bandstop" (FcList [PyNum 62; PyNum 58])
     = Ok (PyNum 62, PyNum 58).
Proof.
  destruct (check_band_definition_forms "bandstop") as (_ & Ht & Hl);
    [by right|].
  split; [exact (Ht 58%Q 62%Q)|]. split; [exact (Ht 62%Q 58%Q)|].
  exact (Hl (PyNum 62) (PyNum 58)).
Defined.

Lemma check_filter_properties_no_attenuation_witness :
  check_filter_properties (Sub := flat_substrate)
    (replicate 3 (Exact.Num (1 # 3))) DenomOne 1000 "lowpass" (FcNum 400)
    default_transitions
  = mkM [Warn msg_no_attenuation []] (Ok tt).
Proof.
  eapply (check_filter_properties_no_attenuation (Sub := flat_substrate)
            (replicate 3 (Exact.Num (1 # 3))) DenomOne 1000 "lowpass"
            (FcNum 400)).
  - reflexivity.
  - reflexivity.
  - discriminate.
  - repeat (apply List.Forall_cons; [discriminate|]). apply List.Forall_nil.
Defined.

Lemma transition_warning_iff_wider_witness :
  outcome (check_filter_properties (Sub := Exact.substrate)
             (replicate 3 (Exact.Num (1 # 3))) DenomOne 1000 "lowpass"
             (FcNum 400) default_transitions) = Ok tt.
Proof.
  edestruct (transition_warning_iff_wider (Sub := Exact.substrate)
               (replicate 3 (Exact.Num (1 # 3))) DenomOne 1000 "lowpass"
               (FcNum 400) PyNone (PyNum 400)
               (map (fun k => (inject_Z k * 1000 / 10)%Q) [0; 1; 2; 3; 4])
               [0; -1; -10; -30; -60]%Q (-60)%Q 400%Q) as (Hout & _ & _).
  - reflexivity.
  - reflexivity.
  - apply list_elem_of_In. simpl. tauto.
  - reflexivity.
  - reflexivity.
  - vm_compute. reflexivity.
  - exact Hout.
Defined.

Lemma invalid_definition_propagates_witness :
  filter_signal Exact.sig8 1000 "allpass" (FcNum 400) 3 None false (Some 2)
    true true true true = mkM [] (Raise (ValueError msg_passtype)).
Proof.
  apply (invalid_definition_propagates Exact.sig8 1000 "allpass" (FcNum 400)
           3 None 2 true true true true).
  reflexivity.
Defined.
